(** * IntelliHome / DomiSafe runtime coordinator ([App.py])

    A shallow embedding of [DomiSafeApp]: configuration loading, the mode
    selector, the inbound command router, the cloud uplink and the
    data-collection loop, together with the properties of the coordinator
    that the design document states.

    Modelling conventions.
    - A Python [str] whose characters the code inspects (the payload of an
      inbound message) is the list of its Unicode code points, [pystr];
      [strip] uses Python's table of whitespace characters.  The case
      mappings are written out for the ASCII letters; any other character
      is kept as it is and counts as uncased, which does not change the
      outcome of either membership test the code makes on a cased string.
      A [str] that is only compared or passed on (feed names, dict keys,
      log text) is a Rocq [string].
    - A [dict] with string keys whose insertion order is irrelevant is a
      [gmap string _]; a [dict] that the code iterates over ([ENV_FEEDS],
      [SECURITY_FEEDS], [CONTROL_FEEDS]) is an association list in insertion
      order.  The two dicts local to the loop ([timers], [security_counts])
      have fixed literal keys and are records.
    - The absent collaborator modules (transport, sensors, actuators, clock
      formatting) are an interface [Collaborators] over an arbitrary world
      type; every call threads the world, so a collaborator may answer
      differently on each call.  What the constructor asks of them
      (building them, registering the handler and the feeds) is the
      interface [Startup].  Collaborators are assumed to return; an
      exception raised by one of them is not modelled.
    - Methods run in a state-and-output monad [M]: the state is the object
      plus the locals of the loop, the output is the list of observable
      events (collaborator calls, file writes, logger records) in program
      order.
    - [time.time()] values and the configured intervals are exact integers
      in one common unit; [time.sleep] has no effect on the state and is
      left out. *)

From Stdlib Require Import ZArith Ascii String.
From stdpp Require Import gmap strings list fin_maps.

Local Open Scope string_scope.
Local Open Scope list_scope.
Local Open Scope Z_scope.

(** ** Python string methods used by the coordinator *)

(** A Python [str] as the sequence of its Unicode code points. *)
Abbreviation pystr := (list N).

Module PyStr.

(** The code points of an ASCII literal. *)
Definition py (s : string) : pystr := List.map N_of_ascii (list_ascii_of_string s).

(** The Rocq string of a [str] whose code points are all below 256. *)
Definition to_string (s : pystr) : string :=
  string_of_list_ascii (List.map ascii_of_N s).

(** [str.isspace] on one character, the test [str.strip] applies: TAB..CR,
    FS..US, SPACE, U+0085, U+00A0, U+1680, U+2000..U+200A, U+2028, U+2029,
    U+202F, U+205F and U+3000. *)
Definition is_space (c : N) : bool :=
  ((9 <=? c) && (c <=? 13) || (28 <=? c) && (c <=? 32)
   || (c =? 133) || (c =? 160) || (c =? 5760)
   || (8192 <=? c) && (c <=? 8202)
   || (c =? 8232) || (c =? 8233) || (c =? 8239) || (c =? 8287)
   || (c =? 12288))%N.

Definition is_upper (c : N) : bool := ((65 <=? c) && (c <=? 90))%N.
Definition is_lower (c : N) : bool := ((97 <=? c) && (c <=? 122))%N.
Definition is_cased (c : N) : bool := is_upper c || is_lower c.

Definition to_upper (c : N) : N := if is_lower c then (c - 32)%N else c.
Definition to_lower (c : N) : N := if is_upper c then (c + 32)%N else c.

Fixpoint lstrip (s : pystr) : pystr :=
  match s with
  | [] => []
  | c :: s' => if is_space c then lstrip s' else s
  end.

Fixpoint rstrip (s : pystr) : pystr :=
  match s with
  | [] => []
  | c :: s' =>
      match rstrip s' with
      | [] => if is_space c then [] else [c]
      | r => c :: r
      end
  end.

(** [s.strip()] *)
Definition strip (s : pystr) : pystr := rstrip (lstrip s).

(** [s.upper()] *)
Fixpoint upper (s : pystr) : pystr :=
  match s with
  | [] => []
  | c :: s' => to_upper c :: upper s'
  end.

(** The loop of [s.title()]: a character that follows a cased character is
    lower-cased, any other character is title-cased. *)
Fixpoint title_from (previous_is_cased : bool) (s : pystr) : pystr :=
  match s with
  | [] => []
  | c :: s' =>
      (if previous_is_cased then to_lower c else to_upper c)
        :: title_from (is_cased c) s'
  end.

(** [s.title()] *)
Definition title (s : pystr) : pystr := title_from false s.

(** Equality of two strings up to the case of their letters, character by
    character: what the design document calls "case-insensitively equals". *)
Fixpoint caseless_eq (a b : pystr) : bool :=
  match a, b with
  | [], [] => true
  | x :: a', y :: b' =>
      bool_decide (to_lower x = to_lower y) && caseless_eq a' b'
  | _, _ => false
  end.

(** A string none of whose characters is a lower-case letter. *)
Fixpoint no_lower (s : pystr) : bool :=
  match s with
  | [] => true
  | c :: s' => negb (is_lower c) && no_lower s'
  end.

(** A string made of whitespace characters only. *)
Definition blank (s : pystr) : bool := forallb is_space s.

End PyStr.

(** ** Values, readings and feed tables *)

(** The Python values that occur in readings and summaries.  A float is
    carried by its IEEE-754 binary64 bit pattern; it is never computed
    with, only tested for truth. *)
Inductive pyval :=
| PyNone
| PyBool (b : bool)
| PyInt (n : Z)
| PyFloat (bits : Z)
| PyStr (s : string).

(** [bool(v)] *)
Definition truthy (v : pyval) : bool :=
  match v with
  | PyNone => false
  | PyBool b => b
  | PyInt n => negb (n =? 0)
  | PyFloat bits => negb (bits =? 0) && negb (bits =? 2 ^ 63)
  | PyStr s => negb (bool_decide (s = ""))
  end.

(** A reading or a summary: a dict from metric name to value.  One line of
    a log file is the JSON text of one such dict. *)
Abbreviation reading := (gmap string pyval).

(** A dict that is iterated over, in insertion order. *)
Abbreviation feed_table := (list (string * string)).

(** [feeds[key]] for a key of the table. *)
Fixpoint getitem (feeds : feed_table) (key : string) : string :=
  match feeds with
  | [] => ""
  | (k, v) :: rest => if bool_decide (k = key) then v else getitem rest key
  end.

Definition ENV_FEEDS : feed_table :=
  [("temperature", "temperature-feed");
   ("humidity", "humidity-feed");
   ("pressure", "pressure-feed")].

Definition SECURITY_FEEDS : feed_table :=
  [("motion_count", "motion-feed");
   ("smoke_count", "smoke-feed");
   ("sound_count", "sound-feed")].

Definition CONTROL_FEEDS : feed_table :=
  [("light", "light-control");
   ("fan", "fan-control");
   ("buzzer", "buzzer-control");
   ("mode", "system-mode");
   ("camera", "camera-trigger")].

(** [feeds_to_subscribe = list(CONTROL_FEEDS.values())] in
    [setup_control_subscribers]. *)
Definition feeds_to_subscribe : list string := CONTROL_FEEDS.*2.

(** ** Configuration *)

(** What [open(config_file)] followed by [json.load] produces. *)
Inductive json_document :=
| JObject (config : gmap string Z)
| JNotAnObject.

Inductive file_outcome :=
| FileNotFound
| NotJSON
| Parsed (doc : json_document).

Inductive exn := FileNotFoundError | JSONDecodeError | TypeError.

Inductive result (A : Type) :=
| Returns (a : A)
| Raises (e : exn).
Arguments Returns {A} a.
Arguments Raises {A} e.

Inductive level := Info | Warning | Critical | Error.

Inductive message :=
| MsgConfigNotFound (config_file : string)
| MsgSubscribed (feeds : list string)
| MsgPhotoTriggered
| MsgModeUpdated (mode : string)
| MsgInvalidMode (raw : pystr) (mode : string)
| MsgEnvSent
| MsgEnvOffline
| MsgSummarySent (m s a : Z)
| MsgSummaryFailed.

Definition default_config : gmap string Z :=
  {[ "security_check_interval" := 5; "security_send_interval" := 360;
     "env_interval" := 360; "flushing_interval" := 10;
     "cooldown_duration_sec" := 10 ]}.

(** [load_config]: the result, and the logger records it made.  Only
    [FileNotFoundError] is handled; [{**default_config, **config}] lets the
    file's entries win. *)
Definition load_config (fs : string -> file_outcome) (config_file : string)
  : result (gmap string Z) * list (level * message) :=
  match fs config_file with
  | Parsed (JObject config) => (Returns (config ∪ default_config), [])
  | Parsed JNotAnObject => (Raises TypeError, [])
  | NotJSON => (Raises JSONDecodeError, [])
  | FileNotFound =>
      (Returns default_config, [(Warning, MsgConfigNotFound config_file)])
  end.

(** The four intervals the constructor reads out of the loaded config,
    [self.config.get(key, default)]. *)
Record intervals := {
  security_check_interval : Z;
  security_send_interval : Z;
  env_interval : Z;
  flushing_interval : Z
}.

Definition intervals_of (config : gmap string Z) : intervals :=
  {| security_check_interval := default 5 (config !! "security_check_interval");
     security_send_interval := default 360 (config !! "security_send_interval");
     env_interval := default 360 (config !! "env_interval");
     flushing_interval := default 10 (config !! "flushing_interval") |}.

(** ** The coordinator's state *)

(** [timers = {'env_check': 0, 'security_check': 0, 'security_send': 0}] *)
Record timer_set := {
  env_check : Z;
  security_check : Z;
  security_send : Z
}.

(** [security_counts = {'motion': 0, 'smoke': 0, 'sound': 0}] *)
Record counters := {
  motion : Z;
  smoke : Z;
  sound : Z
}.

Inductive detector := Motion | Smoke | Sound.

Definition detector_key (d : detector) : string :=
  match d with
  | Motion => "motion"
  | Smoke => "smoke"
  | Sound => "sound"
  end.

(** [f'{key}_detected'] *)
Definition detected_key (d : detector) : string := detector_key d +:+ "_detected".

(** [security_counts[key] += 1] *)
Definition bump (d : detector) (c : counters) : counters :=
  match d with
  | Motion => {| motion := motion c + 1; smoke := smoke c; sound := sound c |}
  | Smoke => {| motion := motion c; smoke := smoke c + 1; sound := sound c |}
  | Sound => {| motion := motion c; smoke := smoke c; sound := sound c + 1 |}
  end.

Definition zero_timers : timer_set :=
  {| env_check := 0; security_check := 0; security_send := 0 |}.
Definition zero_counters : counters := {| motion := 0; smoke := 0; sound := 0 |}.

Inductive log_file := EnvironmentalLog | SecurityLog.

(** What the coordinator does that another component can observe. *)
Inductive event :=
| EvSend (feed_key : string) (value : pyval) (ok : bool)
| EvEnvSample (r : reading)
| EvSecSample (r : reading)
| EvCapture
| EvProcessCommand (device_name : string) (payload : pystr)
| EvWrite (f : log_file) (line : reading)
| EvFsync
| EvLog (lvl : level) (msg : message).

(** The collaborator modules, none of which is part of the coordinator:
    [MQTT_communicator], [environmental_module], [security_module],
    [device_control_module], and the wall clock behind [time.strftime]. *)
Class Collaborators (W : Type) := {
  send_to_adafruit_io : string -> pyval -> W -> bool * W;
  get_environmental_data : W -> reading * W;
  get_security_data : W -> reading * W;
  trigger_manual_capture : W -> W;
  process_command : string -> pystr -> W -> W;
  strftime : W -> string
}.

(** What the constructor asks of the collaborator modules: building the
    four of them from the config file, and registering the command handler
    and the control feeds with the transport. *)
Class Startup (W : Type) := {
  construct : string -> W;
  set_command_handler : W -> W;
  subscribe_to_feeds : list string -> W -> W
}.

(** The object ([self]) and the locals of [data_collection_loop]. *)
Record state (W : Type) := State {
  world : W;
  system_mode : string;
  config : intervals;
  timers : timer_set;
  security_counts : counters;
  file1 : list reading;
  file2 : list reading;
  last_fsync : Z
}.
Arguments State {W}.
Arguments world {W}.
Arguments system_mode {W}.
Arguments config {W}.
Arguments timers {W}.
Arguments security_counts {W}.
Arguments file1 {W}.
Arguments file2 {W}.
Arguments last_fsync {W}.

Section Coordinator.
Context {W : Type} `{Collaborators W}.

(** *** The monad *)

Definition M (A : Type) : Type := state W -> A * state W * list event.

Definition ret {A} (a : A) : M A := fun st => (a, st, []).

Definition bind {A B} (m : M A) (k : A -> M B) : M B :=
  fun st =>
    let '(a, st1, out1) := m st in
    let '(b, st2, out2) := k a st1 in
    (b, st2, out1 ++ out2).

Definition get : M (state W) := fun st => (st, st, []).
Definition modify (f : state W -> state W) : M unit := fun st => (tt, f st, []).
Definition emit (e : event) : M unit := fun st => (tt, st, [e]).

Definition set_world (w : W) (st : state W) : state W :=
  State w (system_mode st) (config st) (timers st) (security_counts st)
        (file1 st) (file2 st) (last_fsync st).

(** A collaborator call that answers. *)
Definition ask {A} (call : W -> A * W) : M A :=
  fun st => let '(a, w) := call (world st) in (a, set_world w st, []).

(** A collaborator call made for its effect. *)
Definition tell (call : W -> W) : M unit := ask (fun w => (tt, call w)).

Definition set_mode (m : string) (st : state W) : state W :=
  State (world st) m (config st) (timers st) (security_counts st)
        (file1 st) (file2 st) (last_fsync st).
Definition set_timers (t : timer_set) (st : state W) : state W :=
  State (world st) (system_mode st) (config st) t (security_counts st)
        (file1 st) (file2 st) (last_fsync st).
Definition set_counts (c : counters) (st : state W) : state W :=
  State (world st) (system_mode st) (config st) (timers st) c
        (file1 st) (file2 st) (last_fsync st).
Definition set_file1 (l : list reading) (st : state W) : state W :=
  State (world st) (system_mode st) (config st) (timers st) (security_counts st)
        l (file2 st) (last_fsync st).
Definition set_file2 (l : list reading) (st : state W) : state W :=
  State (world st) (system_mode st) (config st) (timers st) (security_counts st)
        (file1 st) l (last_fsync st).
Definition set_last_fsync (t : Z) (st : state W) : state W :=
  State (world st) (system_mode st) (config st) (timers st) (security_counts st)
        (file1 st) (file2 st) t.

End Coordinator.
Arguments M W A : clear implicits.

Declare Scope coordinator_scope.
Delimit Scope coordinator_scope with coordinator.
Notation "x <- m ;; k" := (bind m (fun x => k))
  (at level 100, m at next level, right associativity) : coordinator_scope.
Notation "m ;; k" := (bind m (fun _ => k))
  (at level 100, right associativity) : coordinator_scope.
Local Open Scope coordinator_scope.

Section Methods.
Context {W : Type} `{Collaborators W}.

Definition logger (lvl : level) (msg : message) : M W unit := emit (EvLog lvl msg).

(** [file_handle.write(json.dumps(record) + "\n")] *)
Definition write (f : log_file) (record : reading) : M W unit :=
  modify (fun st =>
            match f with
            | EnvironmentalLog => set_file1 (file1 st ++ [record]) st
            | SecurityLog => set_file2 (file2 st ++ [record]) st
            end) ;;
  emit (EvWrite f record).

(** [self.mqtt_agent.send_to_adafruit_io(feed_key, value)], its answer
    read as a truth value. *)
Definition mqtt_send (feed_key : string) (value : pyval) : M W bool :=
  ok <- ask (send_to_adafruit_io feed_key value) ;;
  emit (EvSend feed_key value ok) ;;
  ret ok.

(** *** [set_system_mode] *)
Definition set_system_mode (new_mode_raw : pystr) : M W unit :=
  let new_mode := PyStr.title (PyStr.strip new_mode_raw) in
  if bool_decide (new_mode ∈ [PyStr.py "Home"; PyStr.py "Away"]) then
    modify (set_mode (PyStr.to_string new_mode)) ;;
    st <- get ;;
    logger Critical (MsgModeUpdated (system_mode st))
  else
    st <- get ;;
    logger Warning (MsgInvalidMode new_mode_raw (system_mode st)).

(** *** [handle_incoming_mqtt_command] *)

(** The [for device_name, feed_key in CONTROL_FEEDS.items()] loop, which
    stops at the first actuator feed that matches. *)
Fixpoint forward_to_actuator (feed_name : string) (payload : pystr)
    (items : feed_table)
  : M W unit :=
  match items with
  | [] => ret tt
  | (device_name, feed_key) :: rest =>
      if bool_decide (feed_name = feed_key)
         && negb (bool_decide (device_name ∈ ["mode"; "camera"]))
      then
        tell (process_command device_name payload) ;;
        emit (EvProcessCommand device_name payload)
      else forward_to_actuator feed_name payload rest
  end.

Definition handle_incoming_mqtt_command (feed_name : string) (payload : pystr)
  : M W unit :=
  if bool_decide (feed_name = getitem CONTROL_FEEDS "mode") then
    set_system_mode payload
  else if bool_decide (feed_name = getitem CONTROL_FEEDS "camera")
          && bool_decide (PyStr.upper payload ∈ [PyStr.py "TAKE_PHOTO"; PyStr.py "1"])
  then
    logger Critical MsgPhotoTriggered ;;
    tell trigger_manual_capture ;;
    emit EvCapture ;;
    _ <- mqtt_send (getitem CONTROL_FEEDS "camera") (PyStr "PHOTO_TAKEN") ;;
    ret tt
  else forward_to_actuator feed_name payload CONTROL_FEEDS.

(** *** [send_to_cloud] *)

(** The [for sensor_name, feed_key in feeds.items()] loop, with the value of
    [success] on entry. *)
Fixpoint send_each (data : reading) (feeds : feed_table) (success : bool) : M W bool :=
  match feeds with
  | [] => ret success
  | (sensor_name, feed_key) :: rest =>
      match data !! sensor_name with
      | Some value =>
          ok <- mqtt_send feed_key value ;;
          send_each data rest (if negb ok then false else success)
      | None => send_each data rest success
      end
  end.

Definition send_to_cloud (data : reading) (feeds : feed_table) : M W bool :=
  send_each data feeds true.

(** *** [collect_environmental_data] *)

Definition with_env_check (t : Z) (ts : timer_set) : timer_set :=
  {| env_check := t; security_check := security_check ts;
     security_send := security_send ts |}.
Definition with_security_check (t : Z) (ts : timer_set) : timer_set :=
  {| env_check := env_check ts; security_check := t;
     security_send := security_send ts |}.
Definition with_security_send (t : Z) (ts : timer_set) : timer_set :=
  {| env_check := env_check ts; security_check := security_check ts;
     security_send := t |}.

Definition collect_environmental_data (current_time : Z) : M W unit :=
  st <- get ;;
  if env_interval (config st) <=? current_time - env_check (timers st) then
    env_data <- ask get_environmental_data ;;
    emit (EvEnvSample env_data) ;;
    write EnvironmentalLog env_data ;;
    sent <- send_to_cloud env_data ENV_FEEDS ;;
    (if sent then logger Info MsgEnvSent else logger Info MsgEnvOffline) ;;
    modify (fun st => set_timers (with_env_check current_time (timers st)) st)
  else ret tt.

(** *** [collect_security_data] *)

Definition detectors : list detector := [Motion; Smoke; Sound].

(** [sec_data.get(f'{key}_detected', False)], read as a truth value. *)
Definition detected (sec_data : reading) (key : detector) : bool :=
  truthy (default (PyBool false) (sec_data !! detected_key key)).

(** The counting loop over [['motion', 'smoke', 'sound']]. *)
Definition count_detections (sec_data : reading) (c : counters) : counters :=
  foldl (fun c key => if detected sec_data key then bump key c else c) c detectors.

Definition any_detected (sec_data : reading) : bool :=
  existsb (detected sec_data) detectors.

(** The first [if] of [collect_security_data]: the security check. *)
Definition security_check_step (current_time : Z) : M W unit :=
  st <- get ;;
  if security_check_interval (config st)
     <=? current_time - security_check (timers st)
  then
    sec_data <- ask get_security_data ;;
    emit (EvSecSample sec_data) ;;
    modify (fun st =>
              set_counts (count_detections sec_data (security_counts st)) st) ;;
    (if any_detected sec_data then write SecurityLog sec_data else ret tt) ;;
    modify (fun st => set_timers (with_security_check current_time (timers st)) st)
  else ret tt.

Definition security_summary (timestamp : string) (c : counters) : reading :=
  {[ "timestamp" := PyStr timestamp;
     "motion_count" := PyInt (motion c);
     "smoke_count" := PyInt (smoke c);
     "sound_count" := PyInt (sound c) ]}.

(** The second [if] of [collect_security_data]: the summary. *)
Definition security_summary_step (current_time : Z) : M W unit :=
  st <- get ;;
  if security_send_interval (config st)
     <=? current_time - security_send (timers st)
  then
    let c := security_counts st in
    let summary := security_summary (strftime (world st)) c in
    sent <- send_to_cloud summary SECURITY_FEEDS ;;
    (if sent
     then logger Info (MsgSummarySent (motion c) (smoke c) (sound c))
     else logger Warning MsgSummaryFailed) ;;
    modify (fun st =>
              set_counts {| motion := 0; smoke := smoke (security_counts st);
                            sound := sound (security_counts st) |} st) ;;
    modify (fun st =>
              set_counts {| motion := motion (security_counts st); smoke := 0;
                            sound := sound (security_counts st) |} st) ;;
    modify (fun st =>
              set_counts {| motion := motion (security_counts st);
                            smoke := smoke (security_counts st); sound := 0 |} st) ;;
    modify (fun st => set_timers (with_security_send current_time (timers st)) st)
  else ret tt.

Definition collect_security_data (current_time : Z) : M W unit :=
  security_check_step current_time ;;
  security_summary_step current_time.

(** *** [data_collection_loop] *)


(** Step 2 of the loop body: the security task runs unless the mode is
    [Home]. *)
Definition security_gate (current_time : Z) : M W unit :=
  st <- get ;;
  if negb (bool_decide (system_mode st = "Home"))
  then collect_security_data current_time
  else ret tt.

(** Step 4 of the loop body: flush and fsync the open files. *)
Definition flush_to_disk (current_time : Z) : M W unit :=
  st <- get ;;
  if flushing_interval (config st) <? current_time - last_fsync st then
    emit EvFsync ;;
    modify (set_last_fsync current_time)
  else ret tt.

(** One iteration of [while self.running], with [current_time] the value
    [time.time()] returned. *)
Definition loop_body (current_time : Z) : M W unit :=
  collect_environmental_data current_time ;;
  security_gate current_time ;;
  flush_to_disk current_time.

(** The messages the transport delivers, in order. *)
Fixpoint deliver (inbound : list (string * pystr)) : M W unit :=
  match inbound with
  | [] => ret tt
  | (feed_name, payload) :: rest =>
      handle_incoming_mqtt_command feed_name payload ;;
      deliver rest
  end.

(** What one iteration of the loop saw and did. *)
Record tick_report := {
  mode_at_tick : string;
  counts_before : counters;
  counts_after : counters;
  tick_events : list event
}.

(** A run of the loop: before each iteration the transport delivers the
    messages that arrived since the previous one, then the iteration runs
    at the given clock value. *)
Fixpoint iterate (inputs : list (list (string * pystr) * Z)) (st : state W)
  : list tick_report * state W :=
  match inputs with
  | [] => ([], st)
  | (inbound, current_time) :: rest =>
      let '(_, st1, _) := deliver inbound st in
      let '(_, st2, out) := loop_body current_time st1 in
      let '(reports, st3) := iterate rest st2 in
      ({| mode_at_tick := system_mode st1;
          counts_before := security_counts st1;
          counts_after := security_counts st2;
          tick_events := out |} :: reports, st3)
  end.


(** *** [setup_control_subscribers] *)
Definition setup_control_subscribers `{Startup W} : M W unit :=
  tell set_command_handler ;;
  tell (subscribe_to_feeds feeds_to_subscribe) ;;
  logger Info (MsgSubscribed feeds_to_subscribe).

(** *** [__init__]

    The result, and what was logged on the way.  The timers, counters and
    files of the state are the locals of the loop, which do not exist yet;
    [enter_loop] sets them. *)
Definition new_app `{Startup W} (fs : string -> file_outcome) (config_file : string)
  : result (state W) * list event :=
  match load_config fs config_file with
  | (Returns cfg, records) =>
      let st0 := State (construct config_file) "Home" (intervals_of cfg)
                       zero_timers zero_counters [] [] 0 in
      let '(_, st, out) := setup_control_subscribers st0 in
      (Returns st, List.map (fun '(lvl, msg) => EvLog lvl msg) records ++ out)
  | (Raises e, records) =>
      (Raises e, List.map (fun '(lvl, msg) => EvLog lvl msg) records)
  end.

End Methods.

(** ** Reading the output of a method *)

(** The [(feed_key, value)] pairs handed to the transport, in order. *)
Definition send_attempts (out : list event) : list (string * pyval) :=
  omap (fun e => match e with EvSend k v _ => Some (k, v) | _ => None end) out.

(** The transport's answers, in order. *)
Definition send_outcomes (out : list event) : list bool :=
  omap (fun e => match e with EvSend _ _ ok => Some ok | _ => None end) out.

(** How many times the camera's manual trigger was invoked. *)
Definition captures (out : list event) : nat :=
  length (omap (fun e => match e with EvCapture => Some tt | _ => None end) out).

(** The actuator commands that were forwarded. *)
Definition forwarded (out : list event) : list (string * pystr) :=
  omap (fun e => match e with EvProcessCommand d p => Some (d, p) | _ => None end) out.

Definition security_samples (out : list event) : list reading :=
  omap (fun e => match e with EvSecSample r => Some r | _ => None end) out.

Definition environmental_samples (out : list event) : list reading :=
  omap (fun e => match e with EvEnvSample r => Some r | _ => None end) out.

(** The metrics of [feeds] that [data] has a value for, each with the feed
    it goes to: the sends the design document asks [publishAll] to attempt. *)
Definition metrics_in_both (data : reading) (feeds : feed_table)
  : list (string * pyval) :=
  omap (fun '(sensor_name, feed_key) =>
          (fun value => (feed_key, value)) <$> data !! sensor_name) feeds.

(** The transport called on each pair of a batch in turn, whatever it
    answers: its answers, and the world it leaves. *)
Fixpoint transport_run {W} `{Collaborators W} (batch : list (string * pyval)) (w : W)
  : list bool * W :=
  match batch with
  | [] => ([], w)
  | (feed_key, value) :: rest =>
      let r := send_to_adafruit_io feed_key value w in
      let rs := transport_run rest r.2 in
      (r.1 :: rs.1, rs.2)
  end.

(** The send events of a batch with the given answers. *)
Definition sent_events (batch : list (string * pyval)) (answers : list bool)
  : list event :=
  zip_with (fun item ok => EvSend item.1 item.2 ok) batch answers.

(** The three sends a summary of the counters [c] consists of. *)
Definition summary_batch (c : counters) : list (string * pyval) :=
  [("motion-feed", PyInt (motion c)); ("smoke-feed", PyInt (smoke c));
   ("sound-feed", PyInt (sound c))].

Definition is_send (e : event) : Prop :=
  match e with EvSend _ _ _ => True | _ => False end.

(** Two states that differ at most in the world of the collaborators. *)
Definition same_locals {W} (st st' : state W) : Prop :=
  system_mode st' = system_mode st ∧ config st' = config st ∧
  timers st' = timers st ∧ security_counts st' = security_counts st ∧
  file1 st' = file1 st ∧ file2 st' = file2 st ∧ last_fsync st' = last_fsync st.


(** The three timer tests of the loop, as propositions. *)
Definition env_due {W} (current_time : Z) (st : state W) : Prop :=
  env_interval (config st) <= current_time - env_check (timers st).
Definition check_due {W} (current_time : Z) (st : state W) : Prop :=
  security_check_interval (config st) <= current_time - security_check (timers st).
Definition summary_due {W} (current_time : Z) (st : state W) : Prop :=
  security_send_interval (config st) <= current_time - security_send (timers st).

#[export] Instance env_due_dec {W} t (st : state W) : Decision (env_due t st).
Proof. unfold env_due. apply _. Defined.
#[export] Instance check_due_dec {W} t (st : state W) : Decision (check_due t st).
Proof. unfold check_due. apply _. Defined.
#[export] Instance summary_due_dec {W} t (st : state W) : Decision (summary_due t st).
Proof. unfold summary_due. apply _. Defined.

(** ** A scripted world

    A concrete set of collaborators, for evaluating the coordinator: the
    transport answers from a list (and fails once the list is used up), the
    sensors return fixed readings, the actuators and the camera do nothing. *)
Record script := {
  answers : list bool;
  env_reading : reading;
  sec_reading : reading
}.

#[export] Instance scripted : Collaborators script := {
  send_to_adafruit_io _ _ w :=
    (List.hd false (answers w),
     {| answers := List.tl (answers w); env_reading := env_reading w;
        sec_reading := sec_reading w |});
  get_environmental_data w := (env_reading w, w);
  get_security_data w := (sec_reading w, w);
  trigger_manual_capture w := w;
  process_command _ _ w := w;
  strftime _ := "2024-01-01T00:00:00"
}.

#[export] Instance scripted_startup : Startup script := {
  construct _ := {| answers := []; env_reading := ∅; sec_reading := ∅ |};
  set_command_handler w := w;
  subscribe_to_feeds _ w := w
}.

Definition room : reading :=
  {[ "temperature" := PyInt 21; "humidity" := PyInt 40; "pressure" := PyInt 1013 ]}.
Definition quiet : reading :=
  {[ "motion_detected" := PyBool false; "smoke_detected" := PyBool false;
     "sound_detected" := PyBool false ]}.
Definition intruder : reading :=
  {[ "motion_detected" := PyBool true; "smoke_detected" := PyBool false;
     "sound_detected" := PyBool true ]}.

Definition stock_intervals : intervals :=
  {| security_check_interval := 5; security_send_interval := 360;
     env_interval := 360; flushing_interval := 10 |}.

(** A coordinator in the given mode, just inside the loop, with empty log
    files. *)
Definition scripted_app (mode : string) (w : script) : state script :=
  State w mode stock_intervals zero_timers zero_counters [] [] 0.

(** A transport that refuses every send, and one that accepts the next
    seven. *)
Definition offline (env sec : reading) : script :=
  {| answers := []; env_reading := env; sec_reading := sec |}.

Definition online (env sec : reading) : script :=
  {| answers := [true; true; true; true; true; true; true];
     env_reading := env; sec_reading := sec |}.

(** A coordinator that was switched back to [Home] with detections still
    counted, and the same coordinator in mode [Away] with the network
    down. *)
Definition back_home : state script :=
  State (online room quiet) "Home" stock_intervals zero_timers
        {| motion := 2; smoke := 0; sound := 1 |} [] [] 0.

Definition away_offline : state script :=
  State (offline room intruder) "Away" stock_intervals zero_timers
        {| motion := 2; smoke := 0; sound := 1 |} [] [] 0.

(** ** Further observations *)

(** The two values [set_system_mode] lets through. *)
Definition valid_mode (m : string) : Prop := m = "Home" \/ m = "Away".

(** [security_counts[key]] *)
Definition counter (d : detector) (c : counters) : Z :=
  match d with
  | Motion => motion c
  | Smoke => smoke c
  | Sound => sound c
  end.

(** The feed the summary sends a detector's count to. *)
Definition summary_feed (d : detector) : string :=
  getitem SECURITY_FEEDS (detector_key d +:+ "_count").

(** The detections of [d] that the sends of [out] report on the summary
    feed of [d], accepted by the transport or not. *)
Definition reported (d : detector) (out : list event) : Z :=
  foldr (fun '(feed_key, value) acc =>
           if bool_decide (feed_key = summary_feed d)
           then match value with PyInt n => n + acc | _ => acc end
           else acc)
        0 (send_attempts out).

(** The readings among [rs] in which the flag of [d] is set. *)
Definition detections (d : detector) (rs : list reading) : Z :=
  Z.of_nat (length (List.filter (fun r => detected r d) rs)).

Definition reported_in (d : detector) (reports : list tick_report) : Z :=
  foldr (fun r acc => reported d (tick_events r) + acc) 0 reports.

Definition detected_in (d : detector) (reports : list tick_report) : Z :=
  foldr (fun r acc => detections d (security_samples (tick_events r)) + acc)
        0 reports.

(** How many times the files were flushed and synced. *)
Definition fsyncs (out : list event) : nat :=
  length (omap (fun e => match e with EvFsync => Some tt | _ => None end) out).

(** The flush test of the loop, as a proposition. *)
Definition flush_due {W} (current_time : Z) (st : state W) : Prop :=
  flushing_interval (config st) < current_time - last_fsync st.

#[export] Instance flush_due_dec {W} t (st : state W) : Decision (flush_due t st).
Proof. unfold flush_due. apply _. Defined.

(** Two states with the same configuration and the same locals of the
    loop; the mode and the world may differ. *)
Definition same_loop_state {W} (st st' : state W) : Prop :=
  config st' = config st /\ timers st' = timers st
  /\ security_counts st' = security_counts st
  /\ file1 st' = file1 st /\ file2 st' = file2 st
  /\ last_fsync st' = last_fsync st.

(** A coordinator in mode [Away] whose sensors return empty readings. *)
Definition blind : state script :=
  scripted_app "Away" {| answers := []; env_reading := ∅; sec_reading := ∅ |}.

(** A file system holding a config file that sets two of the intervals. *)
Definition partial_config : gmap string Z :=
  {[ "env_interval" := 60; "security_check_interval" := 2 ]}.

Definition disk (name : string) : file_outcome :=
  if bool_decide (name = "config.json")
  then Parsed (JObject partial_config)
  else FileNotFound.

(** * Properties *)

Section PyStrFacts.
Import PyStr.

Lemma to_upper_eq_iff (x y : N) :
  to_upper x = to_upper y <-> to_lower x = to_lower y.
Proof.
  unfold to_upper, to_lower, is_lower, is_upper.
  destruct (N.leb_spec 97 x), (N.leb_spec x 122), (N.leb_spec 97 y),
    (N.leb_spec y 122), (N.leb_spec 65 x), (N.leb_spec x 90),
    (N.leb_spec 65 y), (N.leb_spec y 90); cbn [andb]; lia.
Qed.

Lemma to_lower_eq_cased (x y : N) :
  to_lower x = to_lower y -> is_cased x = is_cased y.
Proof.
  unfold to_lower, is_cased, is_lower, is_upper.
  destruct (N.leb_spec 97 x), (N.leb_spec x 122), (N.leb_spec 97 y),
    (N.leb_spec y 122), (N.leb_spec 65 x), (N.leb_spec x 90),
    (N.leb_spec 65 y), (N.leb_spec y 90); cbn [andb orb]; intros; try done; lia.
Qed.

Lemma to_upper_fixed (c : N) : is_lower c = false -> to_upper c = c.
Proof. unfold to_upper. by intros ->. Qed.

Lemma upper_fixed (s : pystr) : no_lower s = true -> upper s = s.
Proof.
  induction s as [|c s IH]; cbn [no_lower upper]; [done|].
  rewrite andb_true_iff, negb_true_iff. intros [Hc Hs].
  by rewrite to_upper_fixed, IH.
Qed.

(** [a.upper() == b.upper()] is equality up to case. *)
Lemma upper_eq_caseless (a b : pystr) :
  upper a = upper b <-> caseless_eq a b = true.
Proof.
  revert b. induction a as [|x a IH]; intros [|y b]; cbn [upper caseless_eq];
    try done.
  rewrite andb_true_iff, bool_decide_eq_true, <- IH, <- to_upper_eq_iff.
  split; [by intros [= -> ->] | by intros [-> ->]].
Qed.

(** Comparing [payload.upper()] with an upper-case literal is comparing
    [payload] with it up to case. *)
Lemma upper_eq_literal (payload lit : pystr) :
  no_lower lit = true -> (upper payload = lit <-> caseless_eq payload lit = true).
Proof. intros Hlit. by rewrite <- upper_eq_caseless, (upper_fixed lit). Qed.

Lemma to_string_py (s : string) : to_string (py s) = s.
Proof.
  unfold to_string, py. rewrite List.map_map.
  rewrite (List.map_ext _ id); [|intros c; apply ascii_N_embedding].
  rewrite List.map_id. apply string_of_list_ascii_of_string.
Qed.

End PyStrFacts.

(** ** The cloud uplink *)

Section Uplink.
Context {W : Type} `{Collaborators W}.

Lemma same_locals_refl (st : state W) : same_locals st st.
Proof. by repeat split. Qed.

Lemma same_locals_trans (st1 st2 st3 : state W) :
  same_locals st1 st2 -> same_locals st2 st3 -> same_locals st1 st3.
Proof. unfold same_locals. intuition congruence. Qed.

Lemma same_locals_set_world (w : W) (st : state W) : same_locals st (set_world w st).
Proof. by repeat split. Qed.

Lemma mqtt_send_run (feed_key : string) (value : pyval) (st : state W) :
  mqtt_send feed_key value st =
    let r := send_to_adafruit_io feed_key value (world st) in
    (r.1, set_world r.2 st, [EvSend feed_key value r.1]).
Proof.
  unfold mqtt_send, bind, ask, emit, ret.
  by destruct (send_to_adafruit_io feed_key value (world st)).
Qed.

(** The loop of [send_to_cloud] attempts exactly the metrics present in
    both dicts, in the order of [feeds], and clears [success] when an
    attempt is answered with a false value. *)
Lemma send_each_spec (data : reading) (feeds : feed_table) :
  forall (success : bool) (st : state W),
  exists st' out,
    send_each data feeds success st
      = (success && forallb id (send_outcomes out), st', out)
    /\ send_attempts out = metrics_in_both data feeds
    /\ Forall is_send out
    /\ same_locals st st'.
Proof.
  induction feeds as [|[sensor_name feed_key] rest IH]; intros success st.
  - exists st, []. rewrite andb_true_r. repeat split; [constructor|done..].
  - cbn [send_each metrics_in_both omap list_omap].
    destruct (data !! sensor_name) as [value|] eqn:Hlook; cbn [fmap option_fmap option_map].
    + unfold bind at 1. rewrite mqtt_send_run. cbn zeta.
      set (r := send_to_adafruit_io feed_key value (world st)).
      destruct (IH (if negb r.1 then false else success) (set_world r.2 st))
        as (st' & out & -> & Hatt & Hsend & Hloc).
      exists st', (EvSend feed_key value r.1 :: out). split; [|split; [|split]].
      * cbn. f_equal. f_equal. destruct r.1, success; reflexivity.
      * cbn. f_equal. exact Hatt.
      * constructor; [exact I | exact Hsend].
      * eapply same_locals_trans; [apply same_locals_set_world | exact Hloc].
    + apply IH.
Qed.

Lemma forallb_id_Forall (l : list bool) :
  forallb id l = true <-> Forall (fun ok => ok = true) l.
Proof.
  induction l as [|b l IH]; cbn; [by split; [constructor|]|].
  rewrite andb_true_iff, IH, Forall_cons. reflexivity.
Qed.

Lemma send_attempts_outcomes_length (out : list event) :
  length (send_outcomes out) = length (send_attempts out).
Proof.
  unfold send_outcomes, send_attempts.
  induction out as [|e out IH]; [done|].
  destruct e; cbn; rewrite ?IH; reflexivity.
Qed.

Lemma is_send_no_samples (out : list event) :
  Forall is_send out ->
  security_samples out = [] /\ environmental_samples out = []
  /\ captures out = 0%nat /\ forwarded out = [].
Proof.
  induction 1 as [|e out He _ IH]; [done|].
  by destruct e.
Qed.

Lemma set_world_same (st : state W) : set_world (world st) st = st.
Proof. by destruct st. Qed.

Lemma transport_run_length (batch : list (string * pyval)) :
  forall w : W, length (transport_run batch w).1 = length batch.
Proof.
  induction batch as [|[feed_key value] rest IH]; intros w; [done|].
  cbn [transport_run fst length]. by rewrite IH.
Qed.

Lemma send_attempts_sent_events (batch : list (string * pyval)) :
  forall answers : list bool,
    length answers = length batch ->
    send_attempts (sent_events batch answers) = batch
    /\ send_outcomes (sent_events batch answers) = answers.
Proof.
  induction batch as [|[feed_key value] rest IH]; intros [|ok answers] Hlen;
    try done.
  injection Hlen as Hlen. destruct (IH answers Hlen) as [Hatt Hout].
  unfold send_attempts, send_outcomes, sent_events in *. cbn.
  by rewrite Hatt, Hout.
Qed.

(** The loop of [send_to_cloud], in terms of the transport: it calls the
    transport on every metric present in both dicts, in the order of
    [feeds], each call in the world the previous one left. *)
Lemma send_each_run (data : reading) (feeds : feed_table) :
  forall (success : bool) (st : state W),
    let batch := metrics_in_both data feeds in
    let answers := transport_run batch (world st) in
    send_each data feeds success st
    = (success && forallb id answers.1, set_world answers.2 st,
       sent_events batch answers.1).
Proof.
  induction feeds as [|[sensor_name feed_key] rest IH]; intros success st.
  - cbn. by rewrite andb_true_r, set_world_same.
  - cbn [send_each metrics_in_both omap list_omap].
    destruct (data !! sensor_name) as [value|] eqn:Hlook;
      cbn [fmap option_fmap option_map]; [|apply IH].
    unfold bind at 1. rewrite mqtt_send_run. cbv beta iota zeta.
    set (r := send_to_adafruit_io feed_key value (world st)).
    rewrite IH. cbv beta iota zeta. cbn [transport_run world set_world fst snd].
    fold r. unfold sent_events. cbn [zip_with app fst snd].
    f_equal. f_equal. destruct r.1, success; reflexivity.
Qed.

(** C5.  [send_to_cloud] calls the transport once on each metric that
    occurs in both [data] and [feeds], in feed order and whatever the
    earlier calls answered, and on nothing else; its events are those
    sends with the transport's answers, the world it leaves is the one the
    last call left, and it returns [True] if and only if every call was
    answered with success.  When a non-empty batch fails on every metric
    the result is [False] and all of them were attempted. *)
Theorem send_to_cloud_best_effort (data : reading) (feeds : feed_table)
    (st : state W) :
  let batch := metrics_in_both data feeds in
  let answers := transport_run batch (world st) in
  send_to_cloud data feeds st
  = (forallb id answers.1, set_world answers.2 st, sent_events batch answers.1)
  /\ send_attempts (sent_events batch answers.1) = batch
  /\ send_outcomes (sent_events batch answers.1) = answers.1
  /\ (forallb id answers.1 = true <-> Forall (fun ok => ok = true) answers.1)
  /\ (batch <> [] -> Forall (fun ok => ok = false) answers.1 ->
      forallb id answers.1 = false).
Proof.
  intros batch answers.
  pose proof (transport_run_length batch (world st)) as Hlen. fold answers in Hlen.
  split; [unfold send_to_cloud; by rewrite send_each_run|].
  destruct (send_attempts_sent_events batch answers.1 Hlen) as [Hatt Hout].
  split; [exact Hatt|]. split; [exact Hout|].
  split; [apply forallb_id_Forall|].
  intros Hne Hall. destruct answers.1 as [|ok oks].
  - destruct batch; [done | discriminate Hlen].
  - apply Forall_cons in Hall as [-> _]. reflexivity.
Qed.

Lemma disjoint_no_metric (data : reading) (feeds : feed_table) :
  dom data ## (list_to_set feeds.*1 : gset string) ->
  Forall (fun item => data !! item.1 = None) feeds.
Proof.
  intros Hdisj. apply Forall_forall. intros [sensor_name feed_key] Hin.
  apply not_elem_of_dom. intros Hdom. apply (Hdisj sensor_name Hdom).
  apply elem_of_list_to_set, list_elem_of_fmap. by exists (sensor_name, feed_key).
Qed.

Lemma send_each_skips (data : reading) (feeds : feed_table) (success : bool)
    (st : state W) :
  Forall (fun item => data !! item.1 = None) feeds ->
  send_each data feeds success st = (success, st, []).
Proof.
  induction 1 as [|[sensor_name feed_key] rest Hnone _ IH]; [done|].
  cbn [send_each]. cbn in Hnone. by rewrite Hnone.
Qed.

(** C9.  When no metric name occurs in both [data] and [feeds],
    [send_to_cloud] makes no send and returns [True], and leaves the
    coordinator and its collaborators as they were. *)
Theorem send_to_cloud_disjoint (data : reading) (feeds : feed_table)
    (st : state W) :
  dom data ## (list_to_set feeds.*1 : gset string) ->
  send_to_cloud data feeds st = (true, st, [])
  /\ send_attempts (send_to_cloud data feeds st).2 = [].
Proof.
  intros Hdisj. unfold send_to_cloud.
  by rewrite (send_each_skips _ _ _ _ (disjoint_no_metric _ _ Hdisj)).
Qed.

End Uplink.

(** ** The mode selector and the command router *)

Section Router.
Context {W : Type} `{Collaborators W}.

Lemma allowed_mode (new_mode : pystr) :
  new_mode ∈ [PyStr.py "Home"; PyStr.py "Away"]
  <-> new_mode = PyStr.py "Home" \/ new_mode = PyStr.py "Away".
Proof. rewrite !elem_of_cons, elem_of_nil. tauto. Qed.

(** The two outcomes of [set_system_mode]. *)
Lemma set_system_mode_run (new_mode_raw : pystr) (st : state W) :
  let new_mode := PyStr.title (PyStr.strip new_mode_raw) in
  set_system_mode new_mode_raw st =
    if bool_decide (new_mode ∈ [PyStr.py "Home"; PyStr.py "Away"])
    then (tt, set_mode (PyStr.to_string new_mode) st,
          [EvLog Critical (MsgModeUpdated (PyStr.to_string new_mode))])
    else (tt, st, [EvLog Warning (MsgInvalidMode new_mode_raw (system_mode st))]).
Proof.
  intros new_mode. unfold set_system_mode. fold new_mode.
  by destruct (bool_decide (new_mode ∈ [PyStr.py "Home"; PyStr.py "Away"])).
Qed.

(** C4.  [set_system_mode] always returns.  When the stripped and
    title-cased input is neither [Home] nor [Away] the held mode is the
    one held before and a warning naming the input is logged; when it is
    [Home] or [Away] the held mode becomes that value.  Nothing but the
    held mode changes in either case. *)
Theorem set_system_mode_validates (new_mode_raw : pystr) (st : state W) :
  let new_mode := PyStr.title (PyStr.strip new_mode_raw) in
  exists st' out,
    set_system_mode new_mode_raw st = (tt, st', out)
    /\ st' = set_mode (system_mode st') st
    /\ (new_mode <> PyStr.py "Home" /\ new_mode <> PyStr.py "Away" ->
        system_mode st' = system_mode st
        /\ out = [EvLog Warning (MsgInvalidMode new_mode_raw (system_mode st))])
    /\ (new_mode = PyStr.py "Home" ->
        system_mode st' = "Home"
        /\ out = [EvLog Critical (MsgModeUpdated "Home")])
    /\ (new_mode = PyStr.py "Away" ->
        system_mode st' = "Away"
        /\ out = [EvLog Critical (MsgModeUpdated "Away")]).
Proof.
  intros new_mode. rewrite set_system_mode_run. fold new_mode.
  destruct (bool_decide_reflect (new_mode ∈ [PyStr.py "Home"; PyStr.py "Away"]))
    as [Hin|Hout].
  - eexists _, _. split; [reflexivity|]. split; [reflexivity|].
    split; [intros [Hh Ha]; apply allowed_mode in Hin; tauto|].
    split; intros ->; by split.
  - exists st, [EvLog Warning (MsgInvalidMode new_mode_raw (system_mode st))].
    split; [reflexivity|]. split; [by destruct st|]. split; [done|].
    split; intros Heq; destruct Hout; apply allowed_mode; tauto.
Qed.

Lemma photo_payload (payload : pystr) :
  PyStr.upper payload ∈ [PyStr.py "TAKE_PHOTO"; PyStr.py "1"]
  <-> PyStr.caseless_eq payload (PyStr.py "TAKE_PHOTO") = true
      \/ PyStr.caseless_eq payload (PyStr.py "1") = true.
Proof.
  rewrite !elem_of_cons, elem_of_nil.
  rewrite <- !upper_eq_literal by reflexivity. tauto.
Qed.

(** The camera branch of the handler: log, trigger, confirm. *)
Lemma photo_run (st : state W) :
  let camera := getitem CONTROL_FEEDS "camera" in
  let r := send_to_adafruit_io camera (PyStr "PHOTO_TAKEN")
             (trigger_manual_capture (world st)) in
  bind (logger Critical MsgPhotoTriggered)
    (fun _ => bind (tell trigger_manual_capture)
       (fun _ => bind (emit EvCapture)
          (fun _ => bind (mqtt_send camera (PyStr "PHOTO_TAKEN"))
             (fun _ => ret tt)))) st
  = (tt, set_world r.2 st,
     [EvLog Critical MsgPhotoTriggered; EvCapture;
      EvSend camera (PyStr "PHOTO_TAKEN") r.1]).
Proof.
  cbv zeta. unfold bind at 1 2 3, logger, tell, ask, emit. cbn.
  unfold bind. by rewrite mqtt_send_run.
Qed.

(** C8.  A message on the camera feed whose payload equals [TAKE_PHOTO] or
    [1] up to case logs the request, calls the camera's manual trigger
    once and then hands [PHOTO_TAKEN] to the transport on the camera feed:
    the collaborators end in the world that this one trigger followed by
    this one send leaves, and nothing else happens.  With any other payload
    on the camera feed nothing happens: no trigger, no send, no command
    forwarded to an actuator, no change of state. *)
Theorem camera_command_dispatch (payload : pystr) (st : state W) :
  let camera := getitem CONTROL_FEEDS "camera" in
  let requested :=
    PyStr.caseless_eq payload (PyStr.py "TAKE_PHOTO") = true
    \/ PyStr.caseless_eq payload (PyStr.py "1") = true in
  let answer := send_to_adafruit_io camera (PyStr "PHOTO_TAKEN")
                  (trigger_manual_capture (world st)) in
  (requested ->
   handle_incoming_mqtt_command camera payload st
   = (tt, set_world answer.2 st,
      [EvLog Critical MsgPhotoTriggered; EvCapture;
       EvSend camera (PyStr "PHOTO_TAKEN") answer.1])
   /\ captures (handle_incoming_mqtt_command camera payload st).2 = 1%nat
   /\ forwarded (handle_incoming_mqtt_command camera payload st).2 = [])
  /\ (~ requested ->
      handle_incoming_mqtt_command camera payload st = (tt, st, [])).
Proof.
  intros camera requested answer. subst requested.
  unfold handle_incoming_mqtt_command.
  change (getitem CONTROL_FEEDS "mode") with "system-mode".
  subst camera answer. change (getitem CONTROL_FEEDS "camera") with "camera-trigger".
  rewrite (bool_decide_eq_false_2 ("camera-trigger" = "system-mode")) by done.
  rewrite (bool_decide_eq_true_2 ("camera-trigger" = "camera-trigger")) by done.
  cbn [andb].
  destruct (bool_decide_reflect
              (PyStr.upper payload ∈ [PyStr.py "TAKE_PHOTO"; PyStr.py "1"]))
    as [Hin|Hout].
  - apply photo_payload in Hin. split; [|by intros Hno; destruct (Hno Hin)].
    intros _. pose proof (photo_run st) as Hrun. cbv zeta in Hrun.
    change (getitem CONTROL_FEEDS "camera") with "camera-trigger" in Hrun.
    rewrite Hrun. by repeat split.
  - split; [intros Hreq; by apply photo_payload in Hreq|].
    intros _. reflexivity.
Qed.

End Router.

(** ** The collection tasks *)

Section Tasks.
Context {W : Type} `{Collaborators W}.

Arguments send_to_cloud : simpl never.

Lemma send_to_cloud_spec (data : reading) (feeds : feed_table) (st : state W) :
  exists sent st' out,
    send_to_cloud data feeds st = (sent, st', out)
    /\ send_attempts out = metrics_in_both data feeds
    /\ Forall is_send out
    /\ same_locals st st'.
Proof.
  destruct (send_each_spec data feeds true st) as (st' & out & Hrun & Hrest).
  by exists (forallb id (send_outcomes out)), st', out.
Qed.

(** The environmental task when its interval has elapsed. *)
Lemma collect_environmental_data_due (current_time : Z) (st : state W) :
  env_due current_time st ->
  let r := (get_environmental_data (world st)).1 in
  let st1 := set_file1 (file1 st ++ [r])
               (set_world (get_environmental_data (world st)).2 st) in
  exists sent st2 sends,
    send_to_cloud r ENV_FEEDS st1 = (sent, st2, sends)
    /\ send_attempts sends = metrics_in_both r ENV_FEEDS
    /\ Forall is_send sends
    /\ same_locals st1 st2
    /\ collect_environmental_data current_time st
       = (tt, set_timers (with_env_check current_time (timers st2)) st2,
          EvEnvSample r :: EvWrite EnvironmentalLog r
            :: sends ++ [EvLog Info (if sent then MsgEnvSent else MsgEnvOffline)]).
Proof.
  intros Hdue r st1.
  destruct (send_to_cloud_spec r ENV_FEEDS st1)
    as (sent & st2 & sends & Hrun & Hatt & Hsend & Hloc).
  exists sent, st2, sends. repeat (split; [assumption|]).
  unfold collect_environmental_data, bind at 1, get.
  apply Z.leb_le in Hdue. rewrite Hdue.
  unfold bind at 1, ask. subst r st1.
  destruct (get_environmental_data (world st)) as [r w1]. cbn [fst snd] in *.
  unfold bind at 1, emit. unfold bind at 1, write, bind at 1, modify, emit.
  cbn [app]. unfold bind at 1. setoid_rewrite Hrun.
  unfold bind, logger, emit, modify. by destruct sent.
Qed.

(** The environmental task when its interval has not elapsed. *)
Lemma collect_environmental_data_idle (current_time : Z) (st : state W) :
  ~ env_due current_time st ->
  collect_environmental_data current_time st = (tt, st, []).
Proof.
  intros Hidle. unfold collect_environmental_data, bind, get.
  by rewrite (proj2 (Z.leb_nle _ _) Hidle).
Qed.

(** The security check when its interval has elapsed: the transport is not
    involved, so the result is determined by the reading. *)
Lemma security_check_step_due (current_time : Z) (st : state W) :
  check_due current_time st ->
  let r := (get_security_data (world st)).1 in
  let w := (get_security_data (world st)).2 in
  security_check_step current_time st
  = (tt,
     State w (system_mode st) (config st)
           (with_security_check current_time (timers st))
           (count_detections r (security_counts st))
           (file1 st)
           (if any_detected r then file2 st ++ [r] else file2 st)
           (last_fsync st),
     EvSecSample r :: (if any_detected r then [EvWrite SecurityLog r] else [])).
Proof.
  intros Hdue r w. unfold security_check_step, bind at 1, get.
  apply Z.leb_le in Hdue. rewrite Hdue.
  unfold bind at 1, ask. subst r w.
  destruct (get_security_data (world st)) as [r w]. cbn [fst snd].
  unfold bind, emit, modify, write, ret.
  by destruct (any_detected r).
Qed.

Lemma security_check_step_idle (current_time : Z) (st : state W) :
  ~ check_due current_time st ->
  security_check_step current_time st = (tt, st, []).
Proof.
  intros Hidle. unfold security_check_step, bind, get.
  by rewrite (proj2 (Z.leb_nle _ _) Hidle).
Qed.

(** The summary when its interval has elapsed. *)
Lemma security_summary_step_due (current_time : Z) (st : state W) :
  summary_due current_time st ->
  let c := security_counts st in
  let summary := security_summary (strftime (world st)) c in
  exists sent st2 sends,
    send_to_cloud summary SECURITY_FEEDS st = (sent, st2, sends)
    /\ send_attempts sends = metrics_in_both summary SECURITY_FEEDS
    /\ Forall is_send sends
    /\ same_locals st st2
    /\ security_summary_step current_time st
       = (tt,
          set_timers (with_security_send current_time (timers st2))
            (set_counts zero_counters st2),
          sends ++ [if sent
                    then EvLog Info (MsgSummarySent (motion c) (smoke c) (sound c))
                    else EvLog Warning MsgSummaryFailed]).
Proof.
  intros Hdue c summary.
  destruct (send_to_cloud_spec summary SECURITY_FEEDS st)
    as (sent & st2 & sends & Hrun & Hatt & Hsend & Hloc).
  exists sent, st2, sends. repeat (split; [assumption|]).
  unfold security_summary_step, bind at 1, get.
  apply Z.leb_le in Hdue. rewrite Hdue.
  unfold bind at 1. fold c. fold summary. setoid_rewrite Hrun.
  unfold bind, logger, emit, modify. by destruct sent.
Qed.

Lemma security_summary_step_idle (current_time : Z) (st : state W) :
  ~ summary_due current_time st ->
  security_summary_step current_time st = (tt, st, []).
Proof.
  intros Hidle. unfold security_summary_step, bind, get.
  by rewrite (proj2 (Z.leb_nle _ _) Hidle).
Qed.

Lemma bind_run {A B} (m : M W A) (k : A -> M W B) (st : state W)
    a s1 o1 b s2 o2 :
  m st = (a, s1, o1) -> k a s1 = (b, s2, o2) ->
  bind m k st = (b, s2, o1 ++ o2).
Proof. intros Hm Hk. unfold bind. by rewrite Hm, Hk. Qed.

Lemma sends_carry_no_sample (sends : list event) (tail : list event) :
  Forall is_send sends ->
  environmental_samples (sends ++ tail) = environmental_samples tail
  /\ security_samples (sends ++ tail) = security_samples tail.
Proof.
  intros Hsend. unfold environmental_samples, security_samples.
  rewrite !omap_app.
  destruct (is_send_no_samples sends Hsend) as (Hs & He & _).
  unfold environmental_samples, security_samples in Hs, He.
  by rewrite Hs, He.
Qed.

(** What the environmental task touches: the world, [file1], the
    [env_check] timer. *)
Lemma env_task_effect (current_time : Z) (st : state W) :
  exists s1 o1,
    collect_environmental_data current_time st = (tt, s1, o1)
    /\ (system_mode s1 = system_mode st /\ config s1 = config st
        /\ security_counts s1 = security_counts st /\ file2 s1 = file2 st
        /\ last_fsync s1 = last_fsync st
        /\ security_check (timers s1) = security_check (timers st)
        /\ security_send (timers s1) = security_send (timers st))
    /\ file1 s1 = file1 st ++ environmental_samples o1
    /\ security_samples o1 = []
    /\ (env_due current_time st ->
        environmental_samples o1 = [(get_environmental_data (world st)).1]
        /\ env_check (timers s1) = current_time)
    /\ (~ env_due current_time st -> s1 = st /\ o1 = []).
Proof.
  destruct (decide (env_due current_time st)) as [Hdue|Hidle].
  - destruct (collect_environmental_data_due _ _ Hdue)
      as (sent & st2 & sends & _ & _ & Hsend & Hloc & Hrun).
    eexists _, _. split; [exact Hrun|].
    destruct Hloc as (Hm & Hc & Ht & Hn & Hf1 & Hf2 & Hl). cbn in *.
    destruct (sends_carry_no_sample sends
                [EvLog Info (if sent then MsgEnvSent else MsgEnvOffline)] Hsend)
      as [Henv Hsec].
    unfold environmental_samples, security_samples in *. cbn [omap list_omap].
    rewrite Henv, Hsec, Ht. cbn.
    split; [by repeat split|]. split; [by rewrite Hf1|].
    split; [done|]. split; [done|]. intros Hno. by destruct Hno.
  - exists st, []. split; [by apply collect_environmental_data_idle|].
    rewrite app_nil_r. split; [by repeat split|]. repeat (split; [done|]).
    done.
Qed.

(** What the security check touches: the world, the counters, [file2], the
    [security_check] timer. *)
Lemma security_check_effect (current_time : Z) (st : state W) :
  exists s2 o2,
    security_check_step current_time st = (tt, s2, o2)
    /\ (system_mode s2 = system_mode st /\ config s2 = config st
        /\ file1 s2 = file1 st /\ last_fsync s2 = last_fsync st
        /\ env_check (timers s2) = env_check (timers st)
        /\ security_send (timers s2) = security_send (timers st))
    /\ file2 s2 = file2 st ++ List.filter any_detected (security_samples o2)
    /\ environmental_samples o2 = []
    /\ send_attempts o2 = []
    /\ (check_due current_time st ->
        let r := (get_security_data (world st)).1 in
        security_samples o2 = [r]
        /\ security_counts s2 = count_detections r (security_counts st)
        /\ security_check (timers s2) = current_time)
    /\ (~ check_due current_time st -> s2 = st /\ o2 = []).
Proof.
  destruct (decide (check_due current_time st)) as [Hdue|Hidle].
  - eexists _, _. split; [by apply security_check_step_due|].
    set (r := (get_security_data (world st)).1).
    destruct (any_detected r) eqn:Hany; cbn -[any_detected]; rewrite Hany.
    all: split; [by repeat split|].
    all: split; [by rewrite ?app_nil_r|].
    all: by repeat (split; [done|]).
  - exists st, []. split; [by apply security_check_step_idle|].
    cbn. rewrite app_nil_r. split; [by repeat split|].
    repeat (split; [done|]). done.
Qed.

(** What the summary touches: the world, the counters, the
    [security_send] timer. *)
Lemma security_summary_effect (current_time : Z) (st : state W) :
  exists s3 o3,
    security_summary_step current_time st = (tt, s3, o3)
    /\ (system_mode s3 = system_mode st /\ config s3 = config st
        /\ file1 s3 = file1 st /\ file2 s3 = file2 st
        /\ last_fsync s3 = last_fsync st
        /\ env_check (timers s3) = env_check (timers st)
        /\ security_check (timers s3) = security_check (timers st))
    /\ environmental_samples o3 = []
    /\ security_samples o3 = []
    /\ (summary_due current_time st ->
        let c := security_counts st in
        send_attempts o3 =
          [("motion-feed", PyInt (motion c)); ("smoke-feed", PyInt (smoke c));
           ("sound-feed", PyInt (sound c))]
        /\ security_counts s3 = zero_counters
        /\ security_send (timers s3) = current_time)
    /\ (~ summary_due current_time st -> s3 = st /\ o3 = []).
Proof.
  destruct (decide (summary_due current_time st)) as [Hdue|Hidle].
  - destruct (security_summary_step_due _ _ Hdue)
      as (sent & st2 & sends & _ & Hatt & Hsend & Hloc & Hrun).
    eexists _, _. split; [exact Hrun|].
    destruct Hloc as (Hm & Hc & Ht & Hn & Hf1 & Hf2 & Hl). cbn.
    set (log := if sent then _ else _).
    destruct (sends_carry_no_sample sends [log] Hsend) as [Henv Hsec].
    assert (environmental_samples [log] = [] /\ security_samples [log] = []
            /\ send_attempts [log] = []) as (Hl1 & Hl2 & Hl3)
      by (subst log; by destruct sent).
    rewrite Henv, Hsec, Hl1, Hl2, Ht.
    split; [by repeat split|]. split; [done|]. split; [done|].
    split; [|intros Hno; by destruct Hno].
    intros _. unfold send_attempts in *. rewrite omap_app, Hl3, app_nil_r, Hatt.
    by repeat split.
  - exists st, []. split; [by apply security_summary_step_idle|].
    split; [by repeat split|]. repeat (split; [done|]). done.
Qed.

(** The summary in terms of the transport: the timestamp has no feed, so
    the three counters are what is sent. *)
Lemma security_summary_step_run (current_time : Z) (st : state W) :
  summary_due current_time st ->
  let c := security_counts st in
  let answers := transport_run (summary_batch c) (world st) in
  security_summary_step current_time st
  = (tt,
     set_timers (with_security_send current_time (timers st))
       (set_counts zero_counters (set_world answers.2 st)),
     sent_events (summary_batch c) answers.1
       ++ [if forallb id answers.1
           then EvLog Info (MsgSummarySent (motion c) (smoke c) (sound c))
           else EvLog Warning MsgSummaryFailed]).
Proof.
  intros Hdue c answers.
  unfold security_summary_step, bind at 1, get.
  apply Z.leb_le in Hdue. rewrite Hdue.
  unfold bind at 1. fold c. unfold send_to_cloud. rewrite send_each_run.
  cbv beta iota zeta.
  change (metrics_in_both (security_summary (strftime (world st)) c) SECURITY_FEEDS)
    with (summary_batch c).
  fold answers. unfold bind, logger, emit, modify.
  by destruct (forallb id answers.1).
Qed.

(** The environmental task sends on the environmental feeds only. *)
Lemma metrics_in_both_feeds (data : reading) (feeds : feed_table) :
  Forall (fun item => item.1 ∈ feeds.*2) (metrics_in_both data feeds).
Proof.
  induction feeds as [|[sensor_name feed_key] rest IH]; [constructor|].
  cbn [metrics_in_both omap list_omap fmap list_fmap snd].
  assert (Forall (fun item : string * pyval => item.1 ∈ feed_key :: rest.*2)
            (metrics_in_both data rest)) as Hrest.
  { eapply Forall_impl; [exact IH|]. intros item Hin. by right. }
  destruct (data !! sensor_name); cbn; [constructor; [by left | exact Hrest] | exact Hrest].
Qed.

Lemma env_task_attempts (current_time : Z) (st s1 : state W) (o1 : list event) :
  collect_environmental_data current_time st = (tt, s1, o1) ->
  Forall (fun item => item.1 ∈ ENV_FEEDS.*2) (send_attempts o1).
Proof.
  intros Hrun. destruct (decide (env_due current_time st)) as [Hdue|Hidle].
  - destruct (collect_environmental_data_due _ _ Hdue)
      as (sent & st2 & sends & _ & Hatt & _ & _ & Hrun').
    rewrite Hrun in Hrun'. injection Hrun' as -> ->.
    change (EvEnvSample ?r :: EvWrite ?f ?r' :: ?l)
      with ([EvEnvSample r; EvWrite f r'] ++ l).
    unfold send_attempts in *. rewrite !omap_app, Hatt.
    cbn [omap list_omap app]. rewrite app_nil_r. apply metrics_in_both_feeds.
  - rewrite collect_environmental_data_idle in Hrun by done.
    injection Hrun as <- <-. constructor.
Qed.

End Tasks.

(** ** The loop *)

Section Loop.
Context {W : Type} `{Collaborators W}.

Lemma collect_security_data_run (current_time : Z) (st : state W) :
  exists s2 o2 s3 o3,
    security_check_step current_time st = (tt, s2, o2)
    /\ security_summary_step current_time s2 = (tt, s3, o3)
    /\ collect_security_data current_time st = (tt, s3, o2 ++ o3).
Proof.
  destruct (security_check_step current_time st) as [[[] s2] o2] eqn:Hcheck.
  destruct (security_summary_step current_time s2) as [[[] s3] o3] eqn:Hsum.
  exists s2, o2, s3, o3. split; [done|]. split; [done|].
  unfold collect_security_data. by apply bind_run with tt s2.
Qed.

Lemma security_gate_home (current_time : Z) (st : state W) :
  system_mode st = "Home" -> security_gate current_time st = (tt, st, []).
Proof. intros Hmode. unfold security_gate, bind, get. by rewrite Hmode. Qed.

Lemma security_gate_away (current_time : Z) (st : state W) :
  system_mode st <> "Home" ->
  security_gate current_time st = collect_security_data current_time st.
Proof.
  intros Hmode. unfold security_gate, bind, get.
  rewrite (bool_decide_eq_false_2 _ Hmode). cbn [negb app].
  by destruct (collect_security_data current_time st) as [[[] s] o].
Qed.

(** The flush touches [last_fsync] only. *)
Lemma flush_effect (current_time : Z) (st : state W) :
  exists s o,
    flush_to_disk current_time st = (tt, s, o)
    /\ s = set_last_fsync (last_fsync s) st
    /\ environmental_samples o = [] /\ security_samples o = []
    /\ send_attempts o = [].
Proof.
  unfold flush_to_disk, bind at 1, get.
  destruct (flushing_interval (config st) <? current_time - last_fsync st).
  - by eexists _, _.
  - exists st, []. by destruct st.
Qed.

Lemma loop_body_run (current_time : Z) (st : state W) :
  exists s1 o1 s2 o2 s3 o3,
    collect_environmental_data current_time st = (tt, s1, o1)
    /\ security_gate current_time s1 = (tt, s2, o2)
    /\ flush_to_disk current_time s2 = (tt, s3, o3)
    /\ loop_body current_time st = (tt, s3, o1 ++ o2 ++ o3).
Proof.
  destruct (collect_environmental_data current_time st) as [[[] s1] o1] eqn:Henv.
  destruct (security_gate current_time s1) as [[[] s2] o2] eqn:Hgate.
  destruct (flush_to_disk current_time s2) as [[[] s3] o3] eqn:Hflush.
  exists s1, o1, s2, o2, s3, o3. repeat (split; [done|]).
  unfold loop_body. apply bind_run with tt s1; [done|].
  by apply bind_run with tt s2.
Qed.



(** An iteration in any other mode: the four steps in sequence. *)
Lemma loop_body_away (current_time : Z) (st : state W) :
  system_mode st <> "Home" ->
  exists s1 o1 s2 o2 s3 o3 s4 o4,
    collect_environmental_data current_time st = (tt, s1, o1)
    /\ security_check_step current_time s1 = (tt, s2, o2)
    /\ security_summary_step current_time s2 = (tt, s3, o3)
    /\ flush_to_disk current_time s3 = (tt, s4, o4)
    /\ loop_body current_time st = (tt, s4, o1 ++ (o2 ++ o3) ++ o4).
Proof.
  intros Hmode.
  destruct (loop_body_run current_time st)
    as (s1 & o1 & s3 & o23 & s4 & o4 & Henv & Hgate & Hflush & Hbody).
  destruct (env_task_effect current_time st)
    as (s1' & o1' & Henv' & (Hm & _) & _).
  rewrite Henv in Henv'. injection Henv' as <- <-.
  rewrite security_gate_away in Hgate by congruence.
  destruct (collect_security_data_run current_time s1)
    as (s2 & o2 & s3' & o3 & Hcheck & Hsum & Hboth).
  rewrite Hgate in Hboth. injection Hboth as -> ->.
  by exists s1, o1, s2, o2, s3', o3, s4, o4.
Qed.




(** C7.  When the summary step executes, then whether the transport
    accepted the summary or not, the three counters are zero when it
    returns (and the [security_send] timer holds the current time). *)
Theorem summary_resets_counters (current_time : Z) (st : state W) :
  summary_due current_time st ->
  exists (sent : bool) st' sends,
    security_summary_step current_time st
    = (tt, st',
       sends ++ [if sent
                 then EvLog Info (MsgSummarySent (motion (security_counts st))
                                    (smoke (security_counts st))
                                    (sound (security_counts st)))
                 else EvLog Warning MsgSummaryFailed])
    /\ Forall is_send sends
    /\ motion (security_counts st') = 0
    /\ smoke (security_counts st') = 0
    /\ sound (security_counts st') = 0.
Proof.
  intros Hdue.
  destruct (security_summary_step_due _ _ Hdue)
    as (sent & st2 & sends & _ & _ & Hsend & _ & Hrun).
  exists sent. eexists _, sends. split; [exact Hrun|]. by repeat split.
Qed.

(** C3 (as amended).  In an iteration that finds the mode different from
    [Home] and the summary interval elapsed, the summary step runs, after
    the environmental task and the security check of the same iteration:
    the counters it publishes are the counters held at the start of the
    iteration with the detections of this iteration's check added; the
    transport is called on the three of them, on the three security
    feeds; the outcome is logged; the counters are zero afterwards and the
    [security_send] timer holds the current time.  In an iteration that
    finds the mode to be [Home] the summary step does not run, whatever
    its timer says: nothing is sent on a security feed, and the counters
    and the [security_send] timer keep their values. *)
Theorem summary_runs_outside_home (current_time : Z) (st : state W) :
  (system_mode st <> "Home" -> summary_due current_time st ->
   exists s1 o1 s2 o2 st' o4,
     collect_environmental_data current_time st = (tt, s1, o1)
     /\ security_check_step current_time s1 = (tt, s2, o2)
     /\ security_counts s2
        = foldl (fun c r => count_detections r c) (security_counts st)
            (security_samples o2)
     /\ metrics_in_both
          (security_summary (strftime (world s2)) (security_counts s2))
          SECURITY_FEEDS
        = summary_batch (security_counts s2)
     /\ let c := security_counts s2 in
        let answers := transport_run (summary_batch c) (world s2) in
        let s3 := set_timers (with_security_send current_time (timers s2))
                    (set_counts zero_counters (set_world answers.2 s2)) in
        let o3 := sent_events (summary_batch c) answers.1
                    ++ [if forallb id answers.1
                        then EvLog Info (MsgSummarySent (motion c) (smoke c) (sound c))
                        else EvLog Warning MsgSummaryFailed] in
        security_summary_step current_time s2 = (tt, s3, o3)
        /\ flush_to_disk current_time s3 = (tt, st', o4)
        /\ loop_body current_time st = (tt, st', o1 ++ (o2 ++ o3) ++ o4)
        /\ security_counts st' = zero_counters
        /\ security_send (timers st') = current_time)
  /\ (system_mode st = "Home" ->
      exists st' out,
        loop_body current_time st = (tt, st', out)
        /\ Forall (fun item => item.1 ∉ SECURITY_FEEDS.*2) (send_attempts out)
        /\ security_counts st' = security_counts st
        /\ security_send (timers st') = security_send (timers st)).
Proof.
  split.
  - intros Haway Hdue.
    destruct (loop_body_away current_time st Haway)
      as (s1 & o1 & s2 & o2 & s3 & o3 & s4 & o4
          & Henv & Hcheck & Hsum & Hflush & Hbody).
    destruct (env_task_effect current_time st)
      as (? & ? & Henv' & (_ & Hc1 & Hn1 & _ & _ & _ & Ht1) & _).
    rewrite Henv in Henv'. injection Henv' as <- <-.
    destruct (security_check_effect current_time s1)
      as (? & ? & Hcheck' & (_ & Hc2 & _ & _ & _ & Ht2) & _ & _ & _ & Hfire & Hidle).
    rewrite Hcheck in Hcheck'. injection Hcheck' as <- <-.
    assert (summary_due current_time s2) as Hdue2.
    { unfold summary_due in *. by rewrite Hc2, Hc1, Ht2, Ht1. }
    pose proof (security_summary_step_run _ _ Hdue2) as Hrun3. cbv zeta in Hrun3.
    rewrite Hrun3 in Hsum. injection Hsum as Hs3 Ho3. subst s3 o3.
    match type of Hflush with
    | flush_to_disk _ ?s = _ =>
        destruct (flush_effect current_time s) as (? & ? & Hflush' & Hs4 & _)
    end.
    rewrite Hflush in Hflush'. injection Hflush' as <- <-.
    exists s1, o1, s2, o2, s4, o4. split; [exact Henv|]. split; [exact Hcheck|].
    split.
    { destruct (decide (check_due current_time s1)) as [Hd|Hi].
      - destruct (Hfire Hd) as (-> & -> & _). cbn [foldl]. by rewrite Hn1.
      - destruct (Hidle Hi) as [-> ->]. cbn [foldl security_samples omap list_omap].
        by rewrite Hn1. }
    split; [reflexivity|].
    cbv zeta. split; [exact Hrun3|].
    split; [exact Hflush|]. split; [exact Hbody|].
    rewrite Hs4. by split.
  - intros Hhome.
    destruct (loop_body_run current_time st)
      as (s1 & o1 & s2 & o2 & s3 & o3 & Henv & Hgate & Hflush & Hbody).
    destruct (env_task_effect current_time st)
      as (? & ? & Henv' & (Hm1 & _ & Hn1 & _ & _ & _ & Ht1) & _).
    rewrite Henv in Henv'. injection Henv' as <- <-.
    rewrite security_gate_home in Hgate by congruence. injection Hgate as <- <-.
    destruct (flush_effect current_time s1) as (? & ? & Hflush' & Hs3 & _ & _ & Hatt3).
    rewrite Hflush in Hflush'. injection Hflush' as <- <-.
    exists s3, (o1 ++ [] ++ o3). split; [exact Hbody|].
    split.
    { unfold send_attempts in *. rewrite !omap_app, Hatt3. cbn [omap list_omap app].
      rewrite app_nil_r.
      eapply Forall_impl; [exact (env_task_attempts _ _ _ _ Henv)|].
      intros [feed_key value] Hin Hsec. cbn [fst] in *.
      revert Hin Hsec. unfold ENV_FEEDS, SECURITY_FEEDS. cbn [fmap list_fmap snd].
      rewrite !elem_of_cons, !elem_of_nil. intros [->|[->|[->|[]]]]; intros [?|[?|[?|[]]]];
        discriminate. }
    rewrite Hs3. cbn [security_counts timers set_last_fsync]. by split.
Qed.


End Loop.

(** ** Configuration loading *)

Section Configuration.

Lemma default_intervals : intervals_of default_config = stock_intervals.
Proof. reflexivity. Qed.

(** The state the constructor builds once the config is loaded. *)
Lemma new_app_loaded `{Startup W} (fs : string -> file_outcome)
    (config_file : string) (cfg : gmap string Z) (records : list (level * message)) :
  load_config fs config_file = (Returns cfg, records) ->
  new_app fs config_file
  = (Returns (State (subscribe_to_feeds feeds_to_subscribe
                       (set_command_handler (construct config_file)))
                    "Home" (intervals_of cfg) zero_timers zero_counters [] [] 0),
     List.map (fun '(lvl, msg) => EvLog lvl msg) records
       ++ [EvLog Info (MsgSubscribed feeds_to_subscribe)]).
Proof. intros Hload. unfold new_app. by rewrite Hload. Qed.

(** C6 (as amended).  When the configuration file is missing,
    [load_config] returns the built-in defaults (check 5, send 360,
    environment 360, flush 10) and logs one warning; nothing is raised,
    and the constructor goes on: it builds the collaborators, registers the
    handler and the control feeds, and returns a coordinator in mode
    [Home] with those intervals, having logged the warning and then the
    subscription. *)
Theorem load_config_missing_file (fs : string -> file_outcome)
    (config_file : string) :
  fs config_file = FileNotFound ->
  load_config fs config_file
    = (Returns default_config, [(Warning, MsgConfigNotFound config_file)])
  /\ intervals_of default_config
     = {| security_check_interval := 5; security_send_interval := 360;
          env_interval := 360; flushing_interval := 10 |}
  /\ forall (W : Type) (startup : Startup W),
      new_app fs config_file
      = (Returns (State (subscribe_to_feeds feeds_to_subscribe
                           (set_command_handler (construct config_file)))
                        "Home" stock_intervals zero_timers zero_counters [] [] 0),
         [EvLog Warning (MsgConfigNotFound config_file);
          EvLog Info (MsgSubscribed feeds_to_subscribe)]).
Proof.
  intros Hmissing.
  assert (load_config fs config_file
          = (Returns default_config, [(Warning, MsgConfigNotFound config_file)]))
    as Hload by (unfold load_config; by rewrite Hmissing).
  split; [exact Hload|]. split; [reflexivity|].
  intros W startup. rewrite (new_app_loaded _ _ _ _ Hload).
  by rewrite default_intervals.
Qed.

(** A file that is present and holds a JSON object overrides the defaults
    key by key. *)
Lemma load_config_parsed (fs : string -> file_outcome) (config_file : string)
    (config : gmap string Z) (key : string) :
  fs config_file = Parsed (JObject config) ->
  exists cfg,
    load_config fs config_file = (Returns cfg, [])
    /\ cfg !! key = match config !! key with
                    | Some v => Some v
                    | None => default_config !! key
                    end.
Proof.
  intros Hfile. unfold load_config. rewrite Hfile.
  eexists. split; [reflexivity|].
  rewrite lookup_union. by destruct (config !! key), (default_config !! key).
Qed.

End Configuration.

(** ** The model at concrete inputs *)

Example mode_away :
  system_mode (handle_incoming_mqtt_command "system-mode" (PyStr.py " aWAY ")
                 (scripted_app "Home" (online room quiet))).1.2 = "Away".
Proof. reflexivity. Qed.

(** U+00A0 before and U+3000 after the payload are stripped like a space. *)
Example mode_away_unicode_blanks :
  system_mode (handle_incoming_mqtt_command "system-mode"
                 ([160%N] ++ PyStr.py "away" ++ [12288%N])
                 (scripted_app "Home" (online room quiet))).1.2 = "Away".
Proof. reflexivity. Qed.

Example mode_vacation :
  handle_incoming_mqtt_command "system-mode" (PyStr.py "Vacation")
    (scripted_app "Away" (online room quiet))
  = (tt, scripted_app "Away" (online room quiet),
     [EvLog Warning (MsgInvalidMode (PyStr.py "Vacation") "Away")]).
Proof. reflexivity. Qed.

Example camera_one :
  captures (handle_incoming_mqtt_command "camera-trigger" (PyStr.py "1")
              (scripted_app "Home" (online room quiet))).2 = 1%nat.
Proof. reflexivity. Qed.

Example fan_forwarded :
  (handle_incoming_mqtt_command "fan-control" (PyStr.py "ON")
     (scripted_app "Home" (online room quiet))).2
  = [EvProcessCommand "fan" (PyStr.py "ON")].
Proof. reflexivity. Qed.

Example all_sends_fail :
  let r := send_to_cloud room ENV_FEEDS (scripted_app "Home" (offline room quiet)) in
  r.1.1 = false
  /\ send_attempts r.2 =
       [("temperature-feed", PyInt 21); ("humidity-feed", PyInt 40);
        ("pressure-feed", PyInt 1013)].
Proof. split; reflexivity. Qed.

Example title_words :
  PyStr.title (PyStr.py "hello wORLD 3rd") = PyStr.py "Hello World 3Rd".
Proof. reflexivity. Qed.

Example strip_inner :
  PyStr.strip (9%N :: PyStr.py " a b  ") = PyStr.py "a b".
Proof. reflexivity. Qed.


(** C3, as stated, fails: in mode [Home], with the summary interval
    elapsed, an iteration sends the environmental metrics only, leaves the
    counters as they are and does not touch the [security_send] timer. *)
Lemma summary_skipped_at_home :
  summary_due 400 back_home
  /\ send_attempts (loop_body 400 back_home).2
     = [("temperature-feed", PyInt 21); ("humidity-feed", PyInt 40);
        ("pressure-feed", PyInt 1013)]
  /\ security_counts (loop_body 400 back_home).1.2
     = {| motion := 2; smoke := 0; sound := 1 |}
  /\ security_send (timers (loop_body 400 back_home).1.2) = 0
  /\ ~ (forall (now : Z) (st : state script),
          summary_due now st ->
          security_counts (loop_body now st).1.2 = zero_counters
          /\ security_send (timers (loop_body now st).1.2) = now).
Proof.
  assert (summary_due 400 back_home) as Hdue by (unfold summary_due; cbn; lia).
  split; [exact Hdue|].
  split; [vm_compute; reflexivity|].
  split; [vm_compute; reflexivity|].
  split; [vm_compute; reflexivity|].
  intros Hclaim. destruct (Hclaim 400 back_home Hdue) as [Hzero _].
  vm_compute in Hzero. discriminate Hzero.
Qed.

(** C6, as stated, fails: a file that is present but is not JSON makes
    [load_config] raise; no defaults are returned and nothing is logged. *)
Lemma load_config_unparseable_raises :
  let fs := fun _ : string => NotJSON in
  load_config fs "config.json" = (Raises JSONDecodeError, [])
  /\ ~ (forall (fs : string -> file_outcome) (config_file : string),
          fs config_file = FileNotFound \/ fs config_file = NotJSON ->
          exists records,
            load_config fs config_file = (Returns default_config, records)).
Proof.
  cbv zeta. split; [reflexivity|].
  intros Hclaim.
  destruct (Hclaim (fun _ => NotJSON) "config.json" (or_intror eq_refl))
    as [records Hload].
  discriminate Hload.
Qed.

(** ** The hypotheses of the theorems can be met *)

Lemma send_to_cloud_disjoint_witness :
  dom room ## (list_to_set SECURITY_FEEDS.*1 : gset string)
  /\ send_to_cloud room SECURITY_FEEDS back_home = (true, back_home, [])
  /\ send_attempts (send_to_cloud room SECURITY_FEEDS back_home).2 = [].
Proof.
  assert (dom room ## (list_to_set SECURITY_FEEDS.*1 : gset string)) as Hdisj.
  { apply (bool_decide_unpack _). vm_compute. exact I. }
  exact (conj Hdisj (send_to_cloud_disjoint room SECURITY_FEEDS back_home Hdisj)).
Defined.

Lemma summary_resets_counters_witness :
  summary_due 400 away_offline
  /\ exists (sent : bool) st' sends,
      security_summary_step 400 away_offline
      = (tt, st',
         sends ++ [if sent
                   then EvLog Info (MsgSummarySent 2 0 1)
                   else EvLog Warning MsgSummaryFailed])
      /\ Forall is_send sends
      /\ motion (security_counts st') = 0
      /\ smoke (security_counts st') = 0
      /\ sound (security_counts st') = 0.
Proof.
  assert (summary_due 400 away_offline) as Hdue by (unfold summary_due; cbn; lia).
  exact (conj Hdue (summary_resets_counters 400 away_offline Hdue)).
Defined.

Lemma summary_runs_outside_home_witness :
  (system_mode away_offline <> "Home" /\ summary_due 400 away_offline)
  /\ exists s1 o1 s2 o2 st' o4,
      collect_environmental_data 400 away_offline = (tt, s1, o1)
      /\ security_check_step 400 s1 = (tt, s2, o2)
      /\ security_counts s2
         = foldl (fun c r => count_detections r c) (security_counts away_offline)
             (security_samples o2)
      /\ metrics_in_both
           (security_summary (strftime (world s2)) (security_counts s2))
           SECURITY_FEEDS
         = summary_batch (security_counts s2)
      /\ let c := security_counts s2 in
         let answers := transport_run (summary_batch c) (world s2) in
         let s3 := set_timers (with_security_send 400 (timers s2))
                     (set_counts zero_counters (set_world answers.2 s2)) in
         let o3 := sent_events (summary_batch c) answers.1
                     ++ [if forallb id answers.1
                         then EvLog Info (MsgSummarySent (motion c) (smoke c) (sound c))
                         else EvLog Warning MsgSummaryFailed] in
         security_summary_step 400 s2 = (tt, s3, o3)
         /\ flush_to_disk 400 s3 = (tt, st', o4)
         /\ loop_body 400 away_offline = (tt, st', o1 ++ (o2 ++ o3) ++ o4)
         /\ security_counts st' = zero_counters
         /\ security_send (timers st') = 400.
Proof.
  assert (system_mode away_offline <> "Home") as Haway by (cbn; discriminate).
  assert (summary_due 400 away_offline) as Hdue by (unfold summary_due; cbn; lia).
  exact (conj (conj Haway Hdue)
           (proj1 (summary_runs_outside_home 400 away_offline) Haway Hdue)).
Defined.


Lemma load_config_missing_file_witness :
  let fs := fun _ : string => FileNotFound in
  fs "config.json" = FileNotFound
  /\ load_config fs "config.json"
     = (Returns default_config, [(Warning, MsgConfigNotFound "config.json")])
  /\ intervals_of default_config
     = {| security_check_interval := 5; security_send_interval := 360;
          env_interval := 360; flushing_interval := 10 |}
  /\ forall (W : Type) (startup : Startup W),
      new_app fs "config.json"
      = (Returns (State (subscribe_to_feeds feeds_to_subscribe
                           (set_command_handler (construct "config.json")))
                        "Home" stock_intervals zero_timers zero_counters [] [] 0),
         [EvLog Warning (MsgConfigNotFound "config.json");
          EvLog Info (MsgSubscribed feeds_to_subscribe)]).
Proof.
  exact (conj eq_refl
           (load_config_missing_file (fun _ => FileNotFound) "config.json" eq_refl)).
Defined.

(** * Further properties of the coordinator *)

(** ** Normalisation of the mode payload *)

Section Normalisation.
Import PyStr.
Context {W : Type} `{Collaborators W}.

(** Title-casing identifies exactly the strings that are equal up to
    case. *)
Lemma title_from_eq_caseless (s : pystr) :
  forall (b : bool) (t : pystr),
    title_from b s = title_from b t <-> caseless_eq s t = true.
Proof.
  induction s as [|x s IH]; intros b [|y t]; cbn [title_from caseless_eq];
    try (split; intros; done).
  rewrite andb_true_iff, bool_decide_eq_true. split.
  - intros [= Hc Hrest].
    assert (to_lower x = to_lower y) as Hl.
    { destruct b; [exact Hc | by apply to_upper_eq_iff]. }
    split; [exact Hl|].
    rewrite <- (to_lower_eq_cased _ _ Hl) in Hrest. by apply IH in Hrest.
  - intros [Hl Hrest]. f_equal.
    + destruct b; [exact Hl | by apply to_upper_eq_iff].
    + rewrite <- (to_lower_eq_cased _ _ Hl). by apply IH.
Qed.

Lemma title_eq_caseless (s t : pystr) :
  title s = title t <-> caseless_eq s t = true.
Proof. apply title_from_eq_caseless. Qed.

Lemma lstrip_blank (ws : pystr) : blank ws = true -> lstrip ws = [].
Proof.
  induction ws as [|c ws IH]; [done|].
  cbn [blank forallb lstrip]. rewrite andb_true_iff. intros [-> Hws]. by apply IH.
Qed.

Lemma rstrip_blank (ws : pystr) : blank ws = true -> rstrip ws = [].
Proof.
  induction ws as [|c ws IH]; [done|].
  cbn [blank forallb rstrip]. rewrite andb_true_iff. intros [-> Hws].
  by rewrite (IH Hws).
Qed.

Lemma lstrip_app_blank (ws s : pystr) :
  blank ws = true -> lstrip (ws ++ s) = lstrip s.
Proof.
  induction ws as [|c ws IH]; [done|].
  cbn [blank forallb app lstrip]. rewrite andb_true_iff. intros [-> Hws].
  by apply IH.
Qed.

Lemma rstrip_app_blank (s ws : pystr) :
  blank ws = true -> rstrip (s ++ ws) = rstrip s.
Proof.
  intros Hws. induction s as [|c s IH].
  - by apply rstrip_blank.
  - cbn [app rstrip]. by rewrite IH.
Qed.

Lemma strip_app_blank (s ws : pystr) :
  blank ws = true -> strip (s ++ ws) = strip s.
Proof.
  intros Hws. unfold strip. induction s as [|c s IH].
  - cbn [app]. by rewrite (lstrip_blank _ Hws).
  - cbn [app lstrip]. destruct (is_space c); [exact IH|].
    by apply (rstrip_app_blank (c :: s)).
Qed.

Lemma strip_padding (before s after : pystr) :
  blank before = true -> blank after = true ->
  strip (before ++ s ++ after) = strip s.
Proof.
  intros Hb Ha. unfold strip at 1. rewrite (lstrip_app_blank _ _ Hb).
  by apply strip_app_blank.
Qed.

(** X1.  The mode payload is read without regard to case: after stripping,
    a payload equal to [home] up to case selects [Home], one equal to
    [away] up to case selects [Away], and every other payload leaves the
    mode as it was. *)
Theorem mode_payload_case_insensitive (new_mode_raw : pystr) (st : state W) :
  system_mode (set_system_mode new_mode_raw st).1.2 =
    if caseless_eq (strip new_mode_raw) (py "home") then "Home"
    else if caseless_eq (strip new_mode_raw) (py "away") then "Away"
    else system_mode st.
Proof.
  rewrite set_system_mode_run. cbv zeta.
  set (s := strip new_mode_raw).
  destruct (caseless_eq s (py "home")) eqn:Hhome.
  { apply (title_eq_caseless s (py "home")) in Hhome. by rewrite Hhome. }
  destruct (caseless_eq s (py "away")) eqn:Haway.
  { apply (title_eq_caseless s (py "away")) in Haway. by rewrite Haway. }
  rewrite bool_decide_eq_false_2; [done|].
  rewrite !elem_of_cons, elem_of_nil. intros [Hh|[Ha|[]]].
  - apply (title_eq_caseless s (py "home")) in Hh. congruence.
  - apply (title_eq_caseless s (py "away")) in Ha. congruence.
Qed.

(** X2.  Whitespace around the mode payload does not matter: padding a
    payload on either side with characters that [str.strip] removes (the
    ASCII blanks and the Unicode spaces alike) leads to the same held mode
    and the same state. *)
Theorem mode_payload_padding_ignored
    (before new_mode_raw after : pystr) (st : state W) :
  blank before = true -> blank after = true ->
  (set_system_mode (before ++ new_mode_raw ++ after) st).1.2
  = (set_system_mode new_mode_raw st).1.2.
Proof.
  intros Hb Ha. rewrite !set_system_mode_run. cbv zeta.
  rewrite (strip_padding _ _ _ Hb Ha).
  by destruct (bool_decide (title (strip new_mode_raw) ∈ [py "Home"; py "Away"])).
Qed.

End Normalisation.

(** ** Routing of inbound messages *)

Section Routing.
Context {W : Type} `{Collaborators W}.

Lemma same_loop_state_refl (st : state W) : same_loop_state st st.
Proof. by repeat split. Qed.

Lemma same_loop_state_trans (st1 st2 st3 : state W) :
  same_loop_state st1 st2 -> same_loop_state st2 st3 -> same_loop_state st1 st3.
Proof. unfold same_loop_state. intuition congruence. Qed.

(** Forwarding one command to an actuator. *)
Lemma forward_once (device_name : string) (payload : pystr) (st : state W) :
  bind (tell (process_command device_name payload))
       (fun _ => emit (EvProcessCommand device_name payload)) st
  = (tt, set_world (process_command device_name payload (world st)) st,
     [EvProcessCommand device_name payload]).
Proof. reflexivity. Qed.

Lemma forward_to_actuator_miss (feed_name : string) (payload : pystr) (items : feed_table)
    (st : state W) :
  feed_name ∉ items.*2 ->
  forward_to_actuator feed_name payload items st = (tt, st, []).
Proof.
  induction items as [|[device_name feed_key] rest IH]; [done|].
  cbn [fmap list_fmap snd]. rewrite not_elem_of_cons. intros [Hne Hrest].
  cbn [forward_to_actuator]. rewrite (bool_decide_eq_false_2 _ Hne). cbn [andb].
  by apply IH.
Qed.

(** The actuator scan forwards at most one command and does nothing
    else. *)
Lemma forward_to_actuator_effect (feed_name : string) (payload : pystr) (items : feed_table)
    (st : state W) :
  exists st' out,
    forward_to_actuator feed_name payload items st = (tt, st', out)
    /\ same_locals st st'
    /\ (out = [] \/ exists device_name, out = [EvProcessCommand device_name payload]).
Proof.
  induction items as [|[device_name feed_key] rest IH].
  - exists st, []. split; [done|]. split; [apply same_locals_refl | by left].
  - cbn [forward_to_actuator].
    destruct (bool_decide (feed_name = feed_key)
              && negb (bool_decide (device_name ∈ ["mode"; "camera"]))).
    + rewrite forward_once. eexists _, _. split; [done|].
      split; [apply same_locals_set_world | right; by eexists].
    + exact IH.
Qed.

(** What any inbound message leaves alone. *)
Lemma handle_frame (feed_name : string) (payload : pystr) (st : state W) :
  exists st' out,
    handle_incoming_mqtt_command feed_name payload st = (tt, st', out)
    /\ same_loop_state st st'
    /\ environmental_samples out = [] /\ security_samples out = []
    /\ (feed_name <> getitem CONTROL_FEEDS "mode" ->
        system_mode st' = system_mode st)
    /\ (valid_mode (system_mode st) -> valid_mode (system_mode st')).
Proof.
  unfold handle_incoming_mqtt_command.
  destruct (bool_decide_reflect (feed_name = getitem CONTROL_FEEDS "mode"))
    as [Hmode|Hother].
  - rewrite set_system_mode_run. cbv zeta.
    destruct (bool_decide_reflect
                (PyStr.title (PyStr.strip payload) ∈ [PyStr.py "Home"; PyStr.py "Away"])) as [Hin|Hout].
    + eexists _, _. split; [done|]. split; [by repeat split|].
      do 2 (split; [done|]). split; [done|].
      intros _. apply allowed_mode in Hin as [-> | ->]; [by left | by right].
    + eexists _, _. split; [done|]. split; [by repeat split|]. done.
  - destruct (bool_decide (feed_name = getitem CONTROL_FEEDS "camera")
              && bool_decide (PyStr.upper payload ∈ [PyStr.py "TAKE_PHOTO"; PyStr.py "1"])).
    + rewrite photo_run. cbv zeta. eexists _, _. split; [done|].
      split; [by repeat split|]. done.
    + destruct (forward_to_actuator_effect feed_name payload CONTROL_FEEDS st)
        as (st' & out & -> & Hloc & Hout).
      exists st', out. split; [done|].
      destruct Hloc as (Hm & Hc & Ht & Hn & Hf1 & Hf2 & Hl).
      split; [by repeat split|].
      split; [by destruct Hout as [->|[d ->]]|].
      split; [by destruct Hout as [->|[d ->]]|].
      split; [done|]. by rewrite Hm.
Qed.

(** X3.  No inbound message, on whatever feed and with whatever payload,
    changes the configured intervals, the timers, the detection counters,
    the two log files or the flush time, or makes a sensor be read; and
    only a message on the mode feed can change the mode. *)
Theorem command_leaves_loop_state (feed_name : string) (payload : pystr) (st : state W) :
  let r := handle_incoming_mqtt_command feed_name payload st in
  same_loop_state st r.1.2
  /\ environmental_samples r.2 = [] /\ security_samples r.2 = []
  /\ (feed_name <> getitem CONTROL_FEEDS "mode" ->
      system_mode r.1.2 = system_mode st).
Proof.
  destruct (handle_frame feed_name payload st)
    as (st' & out & Hrun & Hloc & He & Hs & Hm & _).
  cbv zeta. rewrite Hrun. cbn [fst snd].
  split; [exact Hloc|]. split; [exact He|]. split; [exact Hs | exact Hm].
Qed.

(** X4.  A message on a feed that the coordinator does not subscribe to is
    ignored: nothing is logged, no collaborator is called and the state is
    unchanged. *)
Theorem unknown_feed_ignored (feed_name : string) (payload : pystr) (st : state W) :
  feed_name ∉ feeds_to_subscribe ->
  handle_incoming_mqtt_command feed_name payload st = (tt, st, []).
Proof.
  intros Hunknown. unfold handle_incoming_mqtt_command.
  rewrite bool_decide_eq_false_2.
  2: { intros ->. apply Hunknown. vm_compute. set_solver. }
  rewrite (bool_decide_eq_false_2 (feed_name = getitem CONTROL_FEEDS "camera")).
  2: { intros ->. apply Hunknown. vm_compute. set_solver. }
  cbn [andb]. by apply forward_to_actuator_miss.
Qed.

(** X5.  A message on the feed of an actuator (any control feed other than
    the mode and camera feeds) is forwarded once, with the device name of
    that feed and the payload as received; nothing else happens. *)
Theorem actuator_command_forwarded (device_name feed_key : string) (payload : pystr)
    (st : state W) :
  (device_name, feed_key) ∈ CONTROL_FEEDS ->
  device_name ∉ ["mode"; "camera"] ->
  handle_incoming_mqtt_command feed_key payload st
  = (tt, set_world (process_command device_name payload (world st)) st,
     [EvProcessCommand device_name payload]).
Proof.
  intros Hin Hact. unfold CONTROL_FEEDS in Hin.
  rewrite !elem_of_cons, elem_of_nil in Hin.
  destruct Hin as [[= -> ->]|[[= -> ->]|[[= -> ->]|[[= -> ->]|[[= -> ->]|[]]]]]].
  - reflexivity.
  - reflexivity.
  - reflexivity.
  - exfalso. apply Hact. set_solver.
  - exfalso. apply Hact. set_solver.
Qed.

(** X6.  A message on the mode feed is never taken for a camera or
    actuator command, whatever its payload: the camera is not triggered,
    nothing is sent or forwarded, and the collaborators are left as they
    were. *)
Theorem mode_feed_only_sets_mode (payload : pystr) (st : state W) :
  let r := handle_incoming_mqtt_command (getitem CONTROL_FEEDS "mode") payload st in
  captures r.2 = 0%nat /\ send_attempts r.2 = [] /\ forwarded r.2 = []
  /\ world r.1.2 = world st.
Proof.
  cbv zeta. unfold handle_incoming_mqtt_command.
  rewrite bool_decide_eq_true_2 by done. rewrite set_system_mode_run. cbv zeta.
  by destruct (bool_decide (PyStr.title (PyStr.strip payload) ∈ [PyStr.py "Home"; PyStr.py "Away"])).
Qed.

Lemma deliver_frame (inbound : list (string * pystr)) :
  forall st : state W,
  exists st' out,
    deliver inbound st = (tt, st', out)
    /\ same_loop_state st st'
    /\ (valid_mode (system_mode st) -> valid_mode (system_mode st')).
Proof.
  induction inbound as [|[feed_name payload] rest IH]; intros st.
  - exists st, []. split; [done|]. split; [apply same_loop_state_refl | done].
  - destruct (handle_frame feed_name payload st)
      as (st1 & o1 & Hrun & Hloc1 & _ & _ & _ & Hvalid1).
    destruct (IH st1) as (st2 & o2 & Hrest & Hloc2 & Hvalid2).
    exists st2, (o1 ++ o2). split.
    + cbn [deliver]. by apply bind_run with tt st1.
    + split; [by eapply same_loop_state_trans | auto].
Qed.

End Routing.

(** ** One iteration of the loop, step by step *)

Section Iteration.
Context {W : Type} `{Collaborators W}.

(** Instantiates an effect lemma at the run [Heq] of its step. *)
Ltac recall effect Heq facts :=
  let s := fresh "s" in
  let o := fresh "o" in
  let E := fresh "E" in
  destruct effect as (s & o & E & facts);
  rewrite Heq in E; injection E as <- <-.

Lemma env_samples_app (a b : list event) :
  environmental_samples (a ++ b) = environmental_samples a ++ environmental_samples b.
Proof. apply omap_app. Qed.

Lemma sec_samples_app (a b : list event) :
  security_samples (a ++ b) = security_samples a ++ security_samples b.
Proof. apply omap_app. Qed.

Lemma send_attempts_app (a b : list event) :
  send_attempts (a ++ b) = send_attempts a ++ send_attempts b.
Proof. apply omap_app. Qed.

Lemma fsyncs_app (a b : list event) : fsyncs (a ++ b) = (fsyncs a + fsyncs b)%nat.
Proof. unfold fsyncs. by rewrite omap_app, length_app. Qed.

Lemma reported_app (d : detector) (a b : list event) :
  reported d (a ++ b) = reported d a + reported d b.
Proof.
  unfold reported. rewrite send_attempts_app, foldr_app.
  generalize (send_attempts b). intros lb.
  induction (send_attempts a) as [|[k v] la IH]; cbn [foldr app]; [lia|].
  destruct (bool_decide (k = summary_feed d)); [|exact IH].
  destruct v; rewrite ?IH; lia.
Qed.

Lemma reported_no_attempt (d : detector) (out : list event) :
  send_attempts out = [] -> reported d out = 0.
Proof. unfold reported. by intros ->. Qed.

Lemma is_send_no_fsync (out : list event) : Forall is_send out -> fsyncs out = 0%nat.
Proof. induction 1 as [|e out He _ IH]; [done|]. by destruct e. Qed.

(** The environmental sends go to the environmental feeds, never to a
    summary feed. *)
Lemma env_metrics_not_reported (d : detector) (r : reading) (out : list event) :
  send_attempts out = metrics_in_both r ENV_FEEDS -> reported d out = 0.
Proof.
  unfold reported. intros ->. unfold metrics_in_both, ENV_FEEDS.
  cbn [omap list_omap].
  by destruct d, (r !! "temperature"), (r !! "humidity"), (r !! "pressure").
Qed.

Lemma env_task_quiet (current_time : Z) (st s1 : state W) (o1 : list event) :
  collect_environmental_data current_time st = (tt, s1, o1) ->
  fsyncs o1 = 0%nat /\ forall d, reported d o1 = 0.
Proof.
  intros Hrun. destruct (decide (env_due current_time st)) as [Hdue|Hidle].
  - destruct (collect_environmental_data_due _ _ Hdue)
      as (sent & st2 & sends & _ & Hatt & Hsend & _ & Hrun').
    rewrite Hrun in Hrun'. injection Hrun' as -> ->.
    change (EvEnvSample ?r :: EvWrite ?f ?r' :: ?l)
      with ([EvEnvSample r; EvWrite f r'] ++ l).
    split.
    + by rewrite !fsyncs_app, (is_send_no_fsync _ Hsend).
    + intros d. rewrite !reported_app, (env_metrics_not_reported d _ _ Hatt).
      reflexivity.
  - rewrite collect_environmental_data_idle in Hrun by done.
    by injection Hrun as <- <-.
Qed.

Lemma check_quiet (current_time : Z) (st s2 : state W) (o2 : list event) :
  security_check_step current_time st = (tt, s2, o2) -> fsyncs o2 = 0%nat.
Proof.
  intros Hrun. destruct (decide (check_due current_time st)) as [Hdue|Hidle].
  - rewrite security_check_step_due in Hrun by done. cbv zeta in Hrun.
    injection Hrun as <- <-.
    by destruct (any_detected (get_security_data (world st)).1).
  - rewrite security_check_step_idle in Hrun by done.
    by injection Hrun as <- <-.
Qed.

Lemma summary_quiet (current_time : Z) (st s3 : state W) (o3 : list event) :
  security_summary_step current_time st = (tt, s3, o3) -> fsyncs o3 = 0%nat.
Proof.
  intros Hrun. destruct (decide (summary_due current_time st)) as [Hdue|Hidle].
  - destruct (security_summary_step_due _ _ Hdue)
      as (sent & st2 & sends & _ & _ & Hsend & _ & Hrun').
    rewrite Hrun in Hrun'. injection Hrun' as -> ->.
    rewrite fsyncs_app, (is_send_no_fsync _ Hsend). by destruct sent.
  - rewrite security_summary_step_idle in Hrun by done.
    by injection Hrun as <- <-.
Qed.

Lemma flush_facts (current_time : Z) (st s : state W) (o : list event) :
  flush_to_disk current_time st = (tt, s, o) ->
  s = set_last_fsync (last_fsync s) st
  /\ environmental_samples o = [] /\ security_samples o = []
  /\ send_attempts o = []
  /\ (flush_due current_time st -> fsyncs o = 1%nat /\ last_fsync s = current_time)
  /\ (~ flush_due current_time st -> fsyncs o = 0%nat /\ s = st).
Proof.
  unfold flush_to_disk, bind at 1, get, flush_due.
  destruct (Z.ltb_spec (flushing_interval (config st))
              (current_time - last_fsync st)) as [Hlt|Hge].
  - intros [= <- <-]. do 4 (split; [done|]). split; [done|].
    intros Hno. by destruct Hno.
  - intros [= <- <-]. split; [by destruct st|].
    do 3 (split; [done|]). split; [lia | done].
Qed.

(** Each flag set in a reading moves its counter by one. *)
Lemma count_detections_counter (d : detector) (r : reading) (c : counters) :
  counter d (count_detections r c)
  = counter d c + (if detected r d then 1 else 0).
Proof.
  unfold count_detections, detectors. cbn [foldl].
  destruct d, (detected r Motion), (detected r Smoke), (detected r Sound);
    cbn; lia.
Qed.

Lemma check_conserves (d : detector) (current_time : Z) (st s2 : state W)
    (o2 : list event) :
  security_check_step current_time st = (tt, s2, o2) ->
  counter d (security_counts s2)
  = counter d (security_counts st) + detections d (security_samples o2).
Proof.
  intros Hrun. destruct (decide (check_due current_time st)) as [Hdue|Hidle].
  - rewrite security_check_step_due in Hrun by done. cbv zeta in Hrun.
    injection Hrun as <- <-. cbn [security_counts].
    rewrite count_detections_counter.
    set (r := (get_security_data (world st)).1).
    assert (security_samples
              (EvSecSample r
                 :: (if any_detected r then [EvWrite SecurityLog r] else []))
            = [r]) as -> by (by destruct (any_detected r)).
    unfold detections. cbn [List.filter]. by destruct (detected r d).
  - rewrite security_check_step_idle in Hrun by done.
    injection Hrun as <- <-.
    change (detections d (security_samples [])) with 0. lia.
Qed.

Lemma summary_conserves (d : detector) (current_time : Z) (st s3 : state W)
    (o3 : list event) :
  security_summary_step current_time st = (tt, s3, o3) ->
  counter d (security_counts s3) + reported d o3 = counter d (security_counts st).
Proof.
  intros Hrun.
  recall (security_summary_effect current_time st) Hrun Hfacts.
  destruct Hfacts as (_ & _ & _ & Hfire & Hidle).
  destruct (decide (summary_due current_time st)) as [Hdue|Hno].
  - destruct (Hfire Hdue) as (Hatt & -> & _).
    unfold reported. rewrite Hatt. cbn [foldr].
    destruct d;
      repeat match goal with
        | |- context [bool_decide ?P] =>
            let b := eval vm_compute in (bool_decide P) in
            change (bool_decide P) with b
        end;
      cbn [counter zero_counters motion smoke sound]; lia.
  - destruct (Hidle Hno) as [-> ->]. change (reported d []) with 0. lia.
Qed.

(** What the gated security task touches: the world, the counters,
    [file2] and the two security timers; and how it accounts for
    detections. *)
Lemma security_gate_effect (current_time : Z) (st : state W) :
  exists s3 o,
    security_gate current_time st = (tt, s3, o)
    /\ (system_mode s3 = system_mode st /\ config s3 = config st
        /\ file1 s3 = file1 st /\ last_fsync s3 = last_fsync st
        /\ env_check (timers s3) = env_check (timers st))
    /\ environmental_samples o = [] /\ fsyncs o = 0%nat
    /\ (forall d, counter d (security_counts s3) + reported d o
                  = counter d (security_counts st)
                    + detections d (security_samples o))
    /\ file2 st `prefix_of` file2 s3.
Proof.
  destruct (decide (system_mode st = "Home")) as [Hhome|Haway].
  - exists st, []. split; [by apply security_gate_home|].
    split; [by repeat split|]. do 2 (split; [done|]).
    split; [intros d; change (reported d []) with 0;
            change (detections d (security_samples [])) with 0; lia|].
    reflexivity.
  - rewrite security_gate_away by done.
    destruct (collect_security_data_run current_time st)
      as (s2 & o2 & s3 & o3 & Hcheck & Hsum & ->).
    exists s3, (o2 ++ o3). split; [done|].
    recall (security_check_effect current_time st) Hcheck HC.
    destruct HC as ((Hm2 & Hc2 & Hf12 & Hl2 & Hte2 & _) & Hf22 & Hes2 & Hat2 & _).
    recall (security_summary_effect current_time s2) Hsum HS.
    destruct HS as ((Hm3 & Hc3 & Hf13 & Hf23 & Hl3 & Hte3 & _) & Hes3 & Hss3 & _).
    split; [repeat split; congruence|].
    split; [by rewrite env_samples_app, Hes2, Hes3|].
    split; [by rewrite fsyncs_app, (check_quiet _ _ _ _ Hcheck),
              (summary_quiet _ _ _ _ Hsum)|].
    split.
    + intros d. rewrite reported_app, sec_samples_app, Hss3, app_nil_r.
      rewrite (reported_no_attempt d o2 Hat2).
      pose proof (check_conserves d _ _ _ _ Hcheck).
      pose proof (summary_conserves d _ _ _ _ Hsum). lia.
    + rewrite Hf23, Hf22. by apply prefix_app_r.
Qed.

(** One iteration of the loop, as seen from outside. *)
Lemma loop_body_effect (current_time : Z) (st : state W) :
  exists st' out,
    loop_body current_time st = (tt, st', out)
    /\ system_mode st' = system_mode st /\ config st' = config st
    /\ (env_due current_time st ->
        length (environmental_samples out) = 1%nat
        /\ env_check (timers st') = current_time)
    /\ (~ env_due current_time st ->
        environmental_samples out = []
        /\ env_check (timers st') = env_check (timers st))
    /\ (flush_due current_time st ->
        fsyncs out = 1%nat /\ last_fsync st' = current_time)
    /\ (~ flush_due current_time st ->
        fsyncs out = 0%nat /\ last_fsync st' = last_fsync st)
    /\ (forall d, counter d (security_counts st') + reported d out
                  = counter d (security_counts st)
                    + detections d (security_samples out))
    /\ file1 st `prefix_of` file1 st' /\ file2 st `prefix_of` file2 st'.
Proof.
  destruct (loop_body_run current_time st)
    as (s1 & o1 & s3 & o23 & s4 & o4 & Henv & Hgate & Hflush & Hbody).
  exists s4, (o1 ++ o23 ++ o4). split; [exact Hbody|].
  recall (env_task_effect current_time st) Henv HE.
  destruct HE as ((Hm1 & Hc1 & Hn1 & Hf21 & Hl1 & _) & Hf11 & Hss1 & Hfire1 & Hidle1).
  destruct (env_task_quiet _ _ _ _ Henv) as [Hfs1 Hrep1].
  recall (security_gate_effect current_time s1) Hgate HG.
  destruct HG as ((Hm3 & Hc3 & Hf13 & Hl3 & Hte3) & Hes3 & Hfs3 & Hcons & Hpre).
  destruct (flush_facts _ _ _ _ Hflush) as (Hs4 & Hes4 & Hss4 & Hat4 & Hffire & Hfidle).
  assert (flush_due current_time s3 <-> flush_due current_time st) as Hdue.
  { unfold flush_due. by rewrite Hc3, Hc1, Hl3, Hl1. }
  rewrite !env_samples_app, !sec_samples_app, !fsyncs_app, Hes3, Hes4, Hss1, Hss4,
    Hfs1, Hfs3, !app_nil_r.
  cbn [app Nat.add].
  assert (timers s4 = timers s3 /\ system_mode s4 = system_mode s3
          /\ config s4 = config s3 /\ security_counts s4 = security_counts s3
          /\ file1 s4 = file1 s3 /\ file2 s4 = file2 s3)
    as (Ht4 & Hm4 & Hc4 & Hn4 & Hf14 & Hf24) by (by rewrite Hs4).
  split; [congruence|]. split; [congruence|].
  split; [intros Hd; destruct (Hfire1 Hd) as [-> Ht]; split; [done|];
          by rewrite Ht4, Hte3|].
  split; [intros Hd; destruct (Hidle1 Hd) as [-> ->]; split; [done|];
          by rewrite Ht4, Hte3|].
  split; [intros Hd; by apply Hffire, Hdue|].
  split; [intros Hd; destruct (Hfidle (fun Hd3 => Hd (proj1 Hdue Hd3))) as [-> ->];
          split; [done | by rewrite Hl3, Hl1]|].
  split.
  - intros d. rewrite !reported_app, Hrep1, (reported_no_attempt d o4 Hat4), Hn4.
    specialize (Hcons d). rewrite Hn1 in Hcons. lia.
  - split.
    + rewrite Hf14, Hf13, Hf11. by apply prefix_app_r.
    + rewrite Hf24, <- Hf21. exact Hpre.
Qed.

End Iteration.

(** ** Runs of the loop *)

Section Runs.
Context {W : Type} `{Collaborators W}.

Lemma iterate_cons (inbound : list (string * pystr)) (current_time : Z)
    (rest : list (list (string * pystr) * Z)) (st : state W) :
  exists st1 delivered st2 out reports st3,
    deliver inbound st = (tt, st1, delivered)
    /\ loop_body current_time st1 = (tt, st2, out)
    /\ iterate rest st2 = (reports, st3)
    /\ iterate ((inbound, current_time) :: rest) st
       = ({| mode_at_tick := system_mode st1;
             counts_before := security_counts st1;
             counts_after := security_counts st2;
             tick_events := out |} :: reports, st3).
Proof.
  cbn [iterate].
  destruct (deliver inbound st) as [[[] st1] delivered] eqn:Hdel.
  destruct (loop_body current_time st1) as [[[] st2] out] eqn:Hbody.
  destruct (iterate rest st2) as [reports st3] eqn:Hrest.
  by exists st1, delivered, st2, out, reports, st3.
Qed.

(** X7.  The held mode is always one of [Home] and [Away]: starting from
    either, whatever messages arrive and however many iterations run, every
    iteration finds one of the two, and one of the two is held at the
    end. *)
Theorem mode_stays_home_or_away
    (inputs : list (list (string * pystr) * Z)) (st : state W) :
  valid_mode (system_mode st) ->
  Forall (fun r => valid_mode (mode_at_tick r)) (iterate inputs st).1
  /\ valid_mode (system_mode (iterate inputs st).2).
Proof.
  revert st. induction inputs as [|[inbound current_time] rest IH]; intros st Hvalid.
  - split; [constructor | exact Hvalid].
  - destruct (iterate_cons inbound current_time rest st)
      as (st1 & delivered & st2 & out & reports & st3 & Hdel & Hbody & Hrest & ->).
    destruct (deliver_frame inbound st) as (? & ? & Hdel' & _ & Hvalid1).
    rewrite Hdel in Hdel'. injection Hdel' as <- <-.
    destruct (loop_body_effect current_time st1) as (? & ? & Hbody' & Hm & _).
    rewrite Hbody in Hbody'. injection Hbody' as <- <-.
    specialize (IH st2). rewrite Hrest, Hm in IH.
    destruct (IH (Hvalid1 Hvalid)) as [Hall Hend].
    split; [constructor; [exact (Hvalid1 Hvalid) | exact Hall] | exact Hend].
Qed.

(** X8.  Detections are accounted for exactly: over any run, for each of
    motion, smoke and sound, the counts handed to the transport in
    summaries plus the count still held at the end equal the count held at
    the start plus the number of sampled readings in which the flag was
    set.  The equation does not depend on the transport accepting the
    summaries. *)
Theorem detections_accounted (d : detector)
    (inputs : list (list (string * pystr) * Z)) (st : state W) :
  counter d (security_counts (iterate inputs st).2)
  + reported_in d (iterate inputs st).1
  = counter d (security_counts st) + detected_in d (iterate inputs st).1.
Proof.
  revert st. induction inputs as [|[inbound current_time] rest IH]; intros st.
  - cbn. lia.
  - destruct (iterate_cons inbound current_time rest st)
      as (st1 & delivered & st2 & out & reports & st3 & Hdel & Hbody & Hrest & ->).
    destruct (deliver_frame inbound st) as (? & ? & Hdel' & (_ & _ & Hn & _) & _).
    rewrite Hdel in Hdel'. injection Hdel' as <- <-.
    destruct (loop_body_effect current_time st1)
      as (? & ? & Hbody' & _ & _ & _ & _ & _ & _ & Hcons & _).
    rewrite Hbody in Hbody'. injection Hbody' as <- <-.
    specialize (IH st2). rewrite Hrest in IH. cbn [fst snd] in IH |- *.
    cbn [reported_in detected_in foldr tick_events].
    fold (reported_in d reports). fold (detected_in d reports).
    specialize (Hcons d). rewrite Hn in Hcons. lia.
Qed.

(** X9.  The two log files are append-only over a run: whatever messages
    arrive and whatever the collaborators answer, the lines present at the
    start are still there, in the same order, at the end. *)
Theorem logs_only_grow
    (inputs : list (list (string * pystr) * Z)) (st : state W) :
  file1 st `prefix_of` file1 (iterate inputs st).2
  /\ file2 st `prefix_of` file2 (iterate inputs st).2.
Proof.
  revert st. induction inputs as [|[inbound current_time] rest IH]; intros st.
  - by split.
  - destruct (iterate_cons inbound current_time rest st)
      as (st1 & delivered & st2 & out & reports & st3 & Hdel & Hbody & Hrest & ->).
    destruct (deliver_frame inbound st)
      as (? & ? & Hdel' & (_ & _ & _ & Hf1 & Hf2 & _) & _).
    rewrite Hdel in Hdel'. injection Hdel' as <- <-.
    destruct (loop_body_effect current_time st1)
      as (? & ? & Hbody' & _ & _ & _ & _ & _ & _ & _ & Hp1 & Hp2).
    rewrite Hbody in Hbody'. injection Hbody' as <- <-.
    specialize (IH st2). rewrite Hrest in IH. destruct IH as [IH1 IH2].
    cbn [fst snd] in *. rewrite <- Hf1, <- Hf2.
    split; etrans; eauto.
Qed.

(** X10.  The environmental task is rate-limited by its timer: once an
    iteration at time [t] has sampled, an iteration at a time less than
    [env_interval] later samples nothing, whether or not the first
    reading reached the cloud and whatever messages arrived in between. *)
Theorem env_not_resampled_early (t t' : Z) (inbound : list (string * pystr))
    (st : state W) :
  env_due t st ->
  t' - t < env_interval (config st) ->
  let st1 := (loop_body t st).1.2 in
  let st2 := (deliver inbound st1).1.2 in
  length (environmental_samples (loop_body t st).2) = 1%nat
  /\ environmental_samples (loop_body t' st2).2 = [].
Proof.
  intros Hdue Hearly.
  destruct (loop_body_effect t st) as (st1 & o1 & -> & _ & Hc1 & Hfire & _).
  destruct (Hfire Hdue) as [Hone Ht]. cbn [fst snd].
  destruct (deliver_frame inbound st1) as (st2 & od & -> & (Hc2 & Ht2 & _) & _).
  cbn [fst snd]. split; [exact Hone|].
  destruct (loop_body_effect t' st2) as (st3 & o3 & -> & _ & _ & _ & Hidle & _).
  apply Hidle. unfold env_due. rewrite Hc2, Hc1, Ht2, Ht. lia.
Qed.

(** X11.  The flush is tested strictly and spaced by its own timer: an
    iteration flushes when more than [flushing_interval] has passed since
    the last flush, and after it no iteration flushes until more than
    [flushing_interval] has passed again (a gap equal to the interval is
    not enough). *)
Theorem flush_spaced (t t' : Z) (inbound : list (string * pystr))
    (st : state W) :
  flush_due t st ->
  t' - t <= flushing_interval (config st) ->
  let st1 := (loop_body t st).1.2 in
  let st2 := (deliver inbound st1).1.2 in
  fsyncs (loop_body t st).2 = 1%nat
  /\ fsyncs (loop_body t' st2).2 = 0%nat.
Proof.
  intros Hdue Hearly.
  destruct (loop_body_effect t st) as (st1 & o1 & -> & _ & Hc1 & _ & _ & Hfire & _).
  destruct (Hfire Hdue) as [Hone Ht]. cbn [fst snd].
  destruct (deliver_frame inbound st1)
    as (st2 & od & -> & (Hc2 & _ & _ & _ & _ & Hl2) & _).
  cbn [fst snd]. split; [exact Hone|].
  destruct (loop_body_effect t' st2)
    as (st3 & o3 & -> & _ & _ & _ & _ & _ & Hidle & _).
  apply Hidle. unfold flush_due. rewrite Hc2, Hc1, Hl2, Ht. lia.
Qed.

End Runs.

(** ** The tasks at their edges *)

Section Edges.
Context {W : Type} `{Collaborators W}.

Lemma any_detected_iff (r : reading) :
  any_detected r = true <-> exists d, detected r d = true.
Proof.
  unfold any_detected, detectors. cbn [existsb]. rewrite !orb_true_iff. split.
  - intros [Hd|[Hd|[Hd|[]%Bool.diff_false_true]]]; eauto.
  - intros [[] Hd]; tauto.
Qed.

Lemma nothing_detected (r : reading) (c : counters) :
  any_detected r = false -> count_detections r c = c.
Proof.
  unfold any_detected, detectors, count_detections. cbn -[detected].
  rewrite !orb_false_iff. intros (-> & -> & -> & _). reflexivity.
Qed.

(** X12.  A security check that is due either logs the reading and
    moves at least one counter up by one, or does neither: a security
    reading is in the log exactly when it was counted. *)
Theorem check_logs_what_it_counts (current_time : Z) (st : state W) :
  check_due current_time st ->
  let r := (get_security_data (world st)).1 in
  let st' := (security_check_step current_time st).1.2 in
  (file2 st' = file2 st ++ [r]
   /\ exists d, counter d (security_counts st')
                = counter d (security_counts st) + 1)
  \/ (file2 st' = file2 st /\ security_counts st' = security_counts st).
Proof.
  intros Hdue. cbv zeta. rewrite security_check_step_due by done.
  cbv zeta. cbn [fst snd file2 security_counts].
  set (r := (get_security_data (world st)).1).
  destruct (any_detected r) eqn:Hany.
  - left. split; [done|]. apply any_detected_iff in Hany as [d Hd].
    exists d. by rewrite count_detections_counter, Hd.
  - right. split; [done|]. by apply nothing_detected.
Qed.

(** X13.  A security reading that carries none of the three
    [_detected] keys is read as "nothing detected": the check samples it,
    moves its timer, and neither counts nor logs anything. *)
Theorem reading_without_flags_ignored (current_time : Z) (st : state W) :
  check_due current_time st ->
  let r := (get_security_data (world st)).1 in
  (forall d, r !! detected_key d = None) ->
  security_check_step current_time st
  = (tt,
     set_timers (with_security_check current_time (timers st))
       (set_world (get_security_data (world st)).2 st),
     [EvSecSample r]).
Proof.
  intros Hdue r Hmissing. rewrite security_check_step_due by done. cbv zeta.
  fold r.
  assert (any_detected r = false) as Hnone.
  { unfold any_detected, detectors, detected. cbn [existsb].
    by rewrite !Hmissing. }
  by rewrite Hnone, (nothing_detected _ _ Hnone).
Qed.

(** X14.  An environmental reading that has none of the three metrics is
    still written to the log; nothing is sent, and since no send failed the
    task reports the data as sent and moves its timer. *)
Theorem env_reading_without_metrics (current_time : Z) (st : state W) :
  env_due current_time st ->
  let r := (get_environmental_data (world st)).1 in
  Forall (fun item => r !! item.1 = None) ENV_FEEDS ->
  collect_environmental_data current_time st
  = (tt,
     set_timers (with_env_check current_time (timers st))
       (set_file1 (file1 st ++ [r])
          (set_world (get_environmental_data (world st)).2 st)),
     [EvEnvSample r; EvWrite EnvironmentalLog r; EvLog Info MsgEnvSent]).
Proof.
  intros Hdue r Hmissing.
  destruct (collect_environmental_data_due _ _ Hdue)
    as (sent & st2 & sends & Hsend & _ & _ & _ & ->).
  fold r in Hsend |- *. unfold send_to_cloud in Hsend.
  rewrite (send_each_skips _ _ _ _ Hmissing) in Hsend.
  by injection Hsend as <- <- <-.
Qed.

(** X15.  [send_to_cloud] does nothing but send: every event it produces is
    a send, there is at most one per entry of the feed table, and the mode,
    the intervals, the timers, the counters and the log files are as
    before. *)
Theorem send_to_cloud_only_sends (data : reading) (feeds : feed_table)
    (st : state W) :
  let r := send_to_cloud data feeds st in
  Forall is_send r.2 /\ (length r.2 <= length feeds)%nat /\ same_locals st r.1.2.
Proof.
  cbv zeta.
  destruct (send_each_spec data feeds true st) as (st' & out & Hrun & Hatt & Hsend & Hloc).
  unfold send_to_cloud. rewrite Hrun. cbn [fst snd].
  split; [exact Hsend|]. split; [|exact Hloc].
  assert (length out = length (send_attempts out)) as ->.
  { clear Hrun Hatt. induction Hsend as [|e out He _ IH]; [done|].
    destruct e; try done. cbn. by rewrite IH. }
  rewrite Hatt. clear. unfold metrics_in_both.
  induction feeds as [|[sensor_name feed_key] rest IH]; [done|].
  cbn [omap list_omap length]. destruct (data !! sensor_name); cbn; lia.
Qed.

(** X16.  A config file holding a JSON object overrides the defaults key
    by key: each of the four intervals of the new coordinator is the
    file's value when the file has the key and the built-in default when it
    has not.  The constructor builds the collaborators, registers the
    handler and the control feeds, starts in mode [Home], and logs the
    subscription and nothing else (no warning). *)
Theorem new_app_merges_config `{Startup W} (fs : string -> file_outcome)
    (config_file : string) (cfg : gmap string Z) :
  fs config_file = Parsed (JObject cfg) ->
  exists st,
    new_app fs config_file
    = (Returns st, [EvLog Info (MsgSubscribed feeds_to_subscribe)])
    /\ system_mode st = "Home"
    /\ world st = subscribe_to_feeds feeds_to_subscribe
                    (set_command_handler (construct config_file))
    /\ config st =
       {| security_check_interval := default 5 (cfg !! "security_check_interval");
          security_send_interval := default 360 (cfg !! "security_send_interval");
          env_interval := default 360 (cfg !! "env_interval");
          flushing_interval := default 10 (cfg !! "flushing_interval") |}.
Proof.
  intros Hfile.
  assert (load_config fs config_file = (Returns (cfg ∪ default_config), []))
    as Hload by (unfold load_config; by rewrite Hfile).
  rewrite (new_app_loaded _ _ _ _ Hload).
  eexists. split; [reflexivity|]. split; [reflexivity|]. split; [reflexivity|].
  cbn [config]. unfold intervals_of. rewrite !lookup_union.
  by destruct (cfg !! "security_check_interval"), (cfg !! "security_send_interval"),
    (cfg !! "env_interval"), (cfg !! "flushing_interval").
Qed.

End Edges.

(** ** The hypotheses of the further properties can be met *)

Lemma mode_payload_padding_ignored_witness :
  (PyStr.blank [32; 160; 8195]%N = true /\ PyStr.blank [10; 12288]%N = true)
  /\ (set_system_mode ([32; 160; 8195]%N ++ PyStr.py "away" ++ [10; 12288]%N)
        back_home).1.2
     = (set_system_mode (PyStr.py "away") back_home).1.2.
Proof.
  exact (conj (conj eq_refl eq_refl)
           (mode_payload_padding_ignored [32; 160; 8195]%N (PyStr.py "away")
              [10; 12288]%N back_home eq_refl eq_refl)).
Defined.

Lemma unknown_feed_ignored_witness :
  ("door-control" ∉ feeds_to_subscribe)
  /\ handle_incoming_mqtt_command "door-control" (PyStr.py "ON") back_home
     = (tt, back_home, []).
Proof.
  assert ("door-control" ∉ feeds_to_subscribe) as Hunknown.
  { apply (bool_decide_unpack _). vm_compute. exact I. }
  exact (conj Hunknown
           (unknown_feed_ignored "door-control" (PyStr.py "ON") back_home Hunknown)).
Defined.

Lemma actuator_command_forwarded_witness :
  (("fan", "fan-control") ∈ CONTROL_FEEDS /\ "fan" ∉ ["mode"; "camera"])
  /\ handle_incoming_mqtt_command "fan-control" (PyStr.py "ON") back_home
     = (tt,
        set_world (process_command "fan" (PyStr.py "ON") (world back_home)) back_home,
        [EvProcessCommand "fan" (PyStr.py "ON")]).
Proof.
  assert (("fan", "fan-control") ∈ CONTROL_FEEDS) as Hin.
  { apply (bool_decide_unpack _). vm_compute. exact I. }
  assert ("fan" ∉ ["mode"; "camera"]) as Hact.
  { apply (bool_decide_unpack _). vm_compute. exact I. }
  exact (conj (conj Hin Hact)
           (actuator_command_forwarded "fan" "fan-control" (PyStr.py "ON")
              back_home Hin Hact)).
Defined.

Lemma mode_stays_home_or_away_witness :
  let inputs := [([("system-mode", PyStr.py "away")], 400);
                 ([("system-mode", PyStr.py "Vacation");
                   ("fan-control", PyStr.py "ON")], 405)] in
  valid_mode (system_mode back_home)
  /\ Forall (fun r => valid_mode (mode_at_tick r)) (iterate inputs back_home).1
  /\ valid_mode (system_mode (iterate inputs back_home).2).
Proof.
  assert (valid_mode (system_mode back_home)) as Hvalid by (by left).
  exact (conj Hvalid (mode_stays_home_or_away _ back_home Hvalid)).
Defined.

Lemma env_not_resampled_early_witness :
  (env_due 400 away_offline /\ 500 - 400 < env_interval (config away_offline))
  /\ length (environmental_samples (loop_body 400 away_offline).2) = 1%nat
  /\ environmental_samples
       (loop_body 500
          (deliver [("system-mode", PyStr.py "home")]
             (loop_body 400 away_offline).1.2).1.2).2
     = [].
Proof.
  assert (env_due 400 away_offline) as Hdue by (unfold env_due; cbn; lia).
  assert (500 - 400 < env_interval (config away_offline)) as Hearly by (cbn; lia).
  exact (conj (conj Hdue Hearly)
           (env_not_resampled_early 400 500 [("system-mode", PyStr.py "home")]
              away_offline Hdue Hearly)).
Defined.

Lemma flush_spaced_witness :
  (flush_due 400 away_offline /\ 410 - 400 <= flushing_interval (config away_offline))
  /\ fsyncs (loop_body 400 away_offline).2 = 1%nat
  /\ fsyncs (loop_body 410 (deliver [] (loop_body 400 away_offline).1.2).1.2).2
     = 0%nat.
Proof.
  assert (flush_due 400 away_offline) as Hdue by (unfold flush_due; cbn; lia).
  assert (410 - 400 <= flushing_interval (config away_offline)) as Hearly
    by (cbn; lia).
  exact (conj (conj Hdue Hearly) (flush_spaced 400 410 [] away_offline Hdue Hearly)).
Defined.

Lemma check_logs_what_it_counts_witness :
  check_due 400 away_offline
  /\ ((file2 (security_check_step 400 away_offline).1.2
       = file2 away_offline ++ [(get_security_data (world away_offline)).1]
       /\ exists d,
           counter d (security_counts (security_check_step 400 away_offline).1.2)
           = counter d (security_counts away_offline) + 1)
      \/ (file2 (security_check_step 400 away_offline).1.2 = file2 away_offline
          /\ security_counts (security_check_step 400 away_offline).1.2
             = security_counts away_offline)).
Proof.
  assert (check_due 400 away_offline) as Hdue by (unfold check_due; cbn; lia).
  exact (conj Hdue (check_logs_what_it_counts 400 away_offline Hdue)).
Defined.

Lemma reading_without_flags_ignored_witness :
  (check_due 400 blind
   /\ forall d, (get_security_data (world blind)).1 !! detected_key d = None)
  /\ security_check_step 400 blind
     = (tt,
        set_timers (with_security_check 400 (timers blind))
          (set_world (get_security_data (world blind)).2 blind),
        [EvSecSample (get_security_data (world blind)).1]).
Proof.
  assert (check_due 400 blind) as Hdue by (unfold check_due; cbn; lia).
  assert (forall d, (get_security_data (world blind)).1 !! detected_key d = None)
    as Hmissing by (intros d; apply lookup_empty).
  exact (conj (conj Hdue Hmissing)
           (reading_without_flags_ignored 400 blind Hdue Hmissing)).
Defined.

Lemma env_reading_without_metrics_witness :
  (env_due 400 blind
   /\ Forall (fun item => (get_environmental_data (world blind)).1 !! item.1 = None)
        ENV_FEEDS)
  /\ collect_environmental_data 400 blind
     = (tt,
        set_timers (with_env_check 400 (timers blind))
          (set_file1 (file1 blind ++ [(get_environmental_data (world blind)).1])
             (set_world (get_environmental_data (world blind)).2 blind)),
        [EvEnvSample (get_environmental_data (world blind)).1;
         EvWrite EnvironmentalLog (get_environmental_data (world blind)).1;
         EvLog Info MsgEnvSent]).
Proof.
  assert (env_due 400 blind) as Hdue by (unfold env_due; cbn; lia).
  assert (Forall (fun item => (get_environmental_data (world blind)).1 !! item.1 = None)
            ENV_FEEDS) as Hmissing
    by (repeat constructor).
  exact (conj (conj Hdue Hmissing)
           (env_reading_without_metrics 400 blind Hdue Hmissing)).
Defined.

Lemma new_app_merges_config_witness :
  disk "config.json" = Parsed (JObject partial_config)
  /\ exists st : state script,
      new_app disk "config.json"
      = (Returns st, [EvLog Info (MsgSubscribed feeds_to_subscribe)])
      /\ system_mode st = "Home"
      /\ world st = subscribe_to_feeds feeds_to_subscribe
                      (set_command_handler (construct "config.json"))
      /\ config st =
         {| security_check_interval :=
              default 5 (partial_config !! "security_check_interval");
            security_send_interval :=
              default 360 (partial_config !! "security_send_interval");
            env_interval := default 360 (partial_config !! "env_interval");
            flushing_interval := default 10 (partial_config !! "flushing_interval") |}.
Proof.
  exact (conj eq_refl
           (new_app_merges_config disk "config.json" partial_config eq_refl)).
Defined.

Example partial_config_intervals :
  intervals_of (partial_config ∪ default_config)
  = {| security_check_interval := 2; security_send_interval := 360;
       env_interval := 60; flushing_interval := 10 |}.
Proof. reflexivity. Qed.

Example summary_reports_counts :
  reported Motion (loop_body 400 away_offline).2 = 3
  /\ reported Sound (loop_body 400 away_offline).2 = 2
  /\ security_counts (loop_body 400 away_offline).1.2 = zero_counters.
Proof. repeat split; vm_compute; reflexivity. Qed.
